(** * Meeting scheduler: credential exchange, validation and orchestration

    A shallow embedding of the TypeScript sources of the meeting-scheduler
    tool: the [MicrosoftGraphClient] class (token cache, [authenticate],
    [createMeeting]), the tool's [execute] function and the stand-alone
    Express handler for [POST /api/execute].

    Conventions of the embedding.
    - Asynchronous code is sequential here: every [await] is a bind of the
      monad [M], whose state carries what the program can observe of the
      outside world (clock reads, requests sent so far).
    - A thrown JavaScript [Error] is its message; every value this program
      throws or catches is an [Error], so the test
      [error instanceof Error ? error.message : String(error)] is the message.
    - Numbers are integers ([Z]): epoch milliseconds, HTTP statuses and
      time-to-live seconds are exactly representable as JavaScript numbers.
    - Inputs have the types the TypeScript interfaces declare: an optional
      field is [option], [None] being [undefined]; the token endpoint's
      JSON has the two fields of the grant that the client reads.
    - The runtime and the remote provider are an environment [Env]: the
      date parser, the clock, the random source, the process environment
      and the two HTTP endpoints.  Theorems quantify over every [Env]. *)

From Stdlib Require Import String Ascii ZArith List Bool Lia.
From Stdlib Require Import DecimalString.
Import ListNotations.

Set Warnings "-register-all".

Local Open Scope string_scope.
Local Open Scope Z_scope.

(** ** JavaScript values and operators used by the program *)

Module JS.

(** Truthiness of a [string]: only the empty string is falsy. *)
Definition truthy (s : string) : bool :=
  match s with
  | EmptyString => false
  | String _ _ => true
  end.

(** Truthiness of a [string | undefined] (or [string | null]). *)
Definition truthy_opt (o : option string) : bool :=
  match o with
  | Some s => truthy s
  | None => false
  end.

(** [a || b] on optional strings. *)
Definition or_else (a b : option string) : option string :=
  if truthy_opt a then a else b.

(** [a ?? d] on an optional boolean. *)
Definition nullish (a : option bool) (d : bool) : bool :=
  match a with
  | Some b => b
  | None => d
  end.

(** Truthiness of a [boolean | undefined]. *)
Definition truthy_flag (a : option bool) : bool :=
  match a with
  | Some b => b
  | None => false
  end.

(** [hay.includes(needle)]. *)
Fixpoint includes (needle hay : string) : bool :=
  if String.prefix needle hay then true
  else match hay with
       | EmptyString => false
       | String _ rest => includes needle rest
       end.

(** Template interpolation of an integer number. *)
Definition string_of_Z (z : Z) : string :=
  NilZero.string_of_int (Z.to_int z).

(** The character [U+0022]. *)
Definition dquote : string := String (ascii_of_nat 34) EmptyString.

(** A JSON value as [response.json()] yields it, with [undefined] added
    for the result of reading a property that is not there. *)
Inductive value : Type :=
| VUndefined
| VNull
| VBool (b : bool)
| VNum (z : Z)
| VStr (s : string)
| VArr (items : list value)
| VObj (props : list (string * value)).

(** Own property [k] of an object literal, [undefined] when absent. *)
Fixpoint lookup (k : string) (props : list (string * value)) : value :=
  match props with
  | [] => VUndefined
  | (k', v) :: rest => if String.eqb k k' then v else lookup k rest
  end.

Definition has_key (k : string) (props : list (string * value)) : bool :=
  existsb (fun p => String.eqb k (fst p)) props.

(** The outcome of evaluating an expression. *)
Inductive Outcome (A : Type) : Type :=
| Returned (a : A)
| Thrown (message : string).
Arguments Returned {A} a.
Arguments Thrown {A} message.

(** [v.k] for the property names this program reads, none of which is
    inherited from a prototype: a [TypeError] on [null] and [undefined],
    the own property on an object, [undefined] on any other value. *)
Definition get (v : value) (k : string) : Outcome value :=
  match v with
  | VUndefined =>
      Thrown ("Cannot read properties of undefined (reading '" ++ k ++ "')")
  | VNull =>
      Thrown ("Cannot read properties of null (reading '" ++ k ++ "')")
  | VObj props => Returned (lookup k props)
  | _ => Returned VUndefined
  end.

(** [v?.k]: short-circuits to [undefined] on [null] and [undefined]. *)
Definition get_opt (v : value) (k : string) : value :=
  match v with
  | VObj props => lookup k props
  | _ => VUndefined
  end.

(** [v === 'text']. *)
Definition strict_eq_str (v : value) (text : string) : bool :=
  match v with
  | VStr s => String.eqb s text
  | _ => false
  end.

Definition value_of_opt_string (o : option string) : value :=
  match o with
  | Some s => VStr s
  | None => VUndefined
  end.

End JS.
Export JS.

(** ** The state-and-exception monad

    A computation takes the state, and gives back an outcome and the new
    state: a [throw] keeps whatever was mutated before it. *)

Definition M (S A : Type) : Type := S -> Outcome A * S.

Definition ret {S A} (a : A) : M S A := fun s => (Returned a, s).

Definition throw {S A} (message : string) : M S A :=
  fun s => (Thrown message, s).

Definition bind {S A B} (m : M S A) (k : A -> M S B) : M S B :=
  fun s =>
    match m s with
    | (Returned a, s') => k a s'
    | (Thrown message, s') => (Thrown message, s')
    end.

(** [try { body } catch (error) { handler(error.message) }]. *)
Definition try_catch {S A} (body : M S A) (handler : string -> M S A) : M S A :=
  fun s =>
    match body s with
    | (Returned a, s') => (Returned a, s')
    | (Thrown message, s') => handler message s'
    end.

Definition of_outcome {S A} (o : Outcome A) : M S A := fun s => (o, s).

Definition gets {S A} (f : S -> A) : M S A := fun s => (Returned (f s), s).

Definition modify {S} (f : S -> S) : M S unit := fun s => (Returned tt, f s).

Declare Scope js_scope.
Delimit Scope js_scope with js.
Notation "x <- m ;; k" := (bind m (fun x => k))
  (at level 61, m at next level, right associativity) : js_scope.
Notation "m ;;; k" := (bind m (fun _ => k))
  (at level 61, right associativity) : js_scope.
Local Open Scope js_scope.

(** ** The outside world *)

(** The body of an outgoing request: [URLSearchParams.toString()] and
    [JSON.stringify] are kept structured, as the pairs and the object they
    serialise. *)
Inductive Body : Type :=
| Form (params : list (string * string))
| Json (object : list (string * value)).

Record Request : Type := mkRequest {
  url : string;
  method : string;
  headers : list (string * string);
  body : Body
}.

(** What [await response.json()] gives. *)
Inductive Parsed (A : Type) : Type :=
| SyntaxError (message : string)
| Data (data : A).
Arguments SyntaxError {A} message.
Arguments Data {A} data.

Record Response (A : Type) : Type := mkResponse {
  status : Z;
  text : string;
  json : Parsed A
}.
Arguments mkResponse {A}.
Arguments status {A}.
Arguments text {A}.
Arguments json {A}.

(** [response.ok]. *)
Definition ok {A} (r : Response A) : bool :=
  (200 <=? status r) && (status r <=? 299).

(** What [await fetch(...)] gives: a rejection (a transport failure) or a
    response. *)
Inductive Fetched (A : Type) : Type :=
| Rejected (message : string)
| Responded (response : Response A).
Arguments Rejected {A} message.
Arguments Responded {A} response.

(** The token endpoint's JSON, in the shape of the client-credentials
    grant: [access_token] and [expires_in] (seconds). *)
Record TokenData : Type := mkTokenData {
  access_token : string;
  expires_in : Z
}.

Record Env : Type := mkEnv {
  (** [new Date(s).getTime()], [None] for [NaN]. *)
  date_parse : string -> option Z;
  (** The value of the n-th read of the clock ([Date.now()], [new Date()]). *)
  now_at : nat -> Z;
  (** The n-th [Math.random().toString(36).substring(7)]. *)
  random_at : nat -> string;
  (** [process.env]. *)
  process_env : string -> option string;
  (** [login.microsoftonline.com], given the requests sent before. *)
  token_endpoint : list Request -> Request -> Fetched TokenData;
  (** [graph.microsoft.com], given the requests sent before. *)
  graph_endpoint : list Request -> Request -> Fetched value
}.

Record World : Type := mkWorld {
  clock_reads : nat;
  random_draws : nat;
  (** Every request sent so far, oldest first. *)
  requests : list Request
}.

Definition initial_world : World := mkWorld 0 0 [].

(** The world after one more read of the clock. *)
Definition tick (w : World) : World :=
  mkWorld (S (clock_reads w)) (random_draws w) (requests w).

(** The world after one more draw of the random source. *)
Definition drawn (w : World) : World :=
  mkWorld (clock_reads w) (S (random_draws w)) (requests w).

(** The world after [req] was sent. *)
Definition sent (req : Request) (w : World) : World :=
  mkWorld (clock_reads w) (random_draws w) (requests w ++ [req]).

Section Runtime.

Variable env : Env.

(** [Date.now()], and the time value of [new Date()]. *)
Definition Date_now : M World Z :=
  fun w => (Returned (now_at env (clock_reads w)), tick w).

Definition Math_random : M World string :=
  fun w => (Returned (random_at env (random_draws w)), drawn w).

(** [await fetch(url, init)] against an endpoint: the request is sent
    (and recorded) whatever comes back. *)
Definition fetch {A} (endpoint : list Request -> Request -> Fetched A)
    (req : Request) : M World (Response A) :=
  fun w =>
    match endpoint (requests w) req with
    | Rejected message => (Thrown message, sent req w)
    | Responded response => (Returned response, sent req w)
    end.

(** [await response.json()]. *)
Definition response_json {S A} (r : Response A) : M S A :=
  match json r with
  | SyntaxError message => throw message
  | Data data => ret data
  end.

End Runtime.

(** ** Input and configuration of the tool *)

Record MeetingSchedulerInput : Type := mkInput {
  subject : string;
  startDateTime : string;
  endDateTime : string;
  attendees : option (list string);
  description : option string;
  allowCamera : option bool;
  allowMicrophone : option bool;
  allowRecording : option bool
}.

Record MeetingSchedulerConfig : Type := mkConfig {
  client_id : option string;
  client_secret : option string;
  tenant_id : option string;
  user_id : option string
}.

(** ** class MicrosoftGraphClient *)

Record MicrosoftGraphClient : Type := mkClient {
  clientId : string;
  clientSecret : string;
  tenantId : string;
  (** [string | null], [null] being [None]. *)
  accessToken : option string;
  tokenExpiry : Z
}.

(** [new MicrosoftGraphClient(clientId, clientSecret, tenantId)]: the field
    initialisers give [accessToken = null] and [tokenExpiry = 0]. *)
Definition new_MicrosoftGraphClient (cid csecret tid : string)
    : MicrosoftGraphClient :=
  mkClient cid csecret tid None 0.

Definition set_accessToken (t : string) (c : MicrosoftGraphClient)
    : MicrosoftGraphClient :=
  mkClient (clientId c) (clientSecret c) (tenantId c) (Some t) (tokenExpiry c).

Definition set_tokenExpiry (e : Z) (c : MicrosoftGraphClient)
    : MicrosoftGraphClient :=
  mkClient (clientId c) (clientSecret c) (tenantId c) (accessToken c) e.

(** A method runs on its object and the world. *)
Definition Method (A : Type) : Type := M (MicrosoftGraphClient * World) A.

Definition in_world {A} (m : M World A) : Method A :=
  fun s =>
    match m (snd s) with
    | (o, w') => (o, (fst s, w'))
    end.

Definition this : Method MicrosoftGraphClient := gets fst.

Definition assign (f : MicrosoftGraphClient -> MicrosoftGraphClient)
    : Method unit :=
  modify (fun s => (f (fst s), snd s)).

(** Runs a method of a locally constructed object; the object is dropped
    when the caller's scope ends. *)
Definition on_object {A} (c : MicrosoftGraphClient) (m : Method A) : M World A :=
  fun w =>
    match m (c, w) with
    | (o, (_, w')) => (o, w')
    end.

Definition token_url (tenant : string) : string :=
  "https://login.microsoftonline.com/" ++ tenant ++ "/oauth2/v2.0/token".

Definition token_request (c : MicrosoftGraphClient) : Request :=
  mkRequest (token_url (tenantId c)) "POST"
    [("Content-Type", "application/x-www-form-urlencoded")]
    (Form [("client_id", clientId c);
           ("client_secret", clientSecret c);
           ("scope", "https://graph.microsoft.com/.default");
           ("grant_type", "client_credentials")]).

Definition endpoint_of (userId : option string) : string :=
  match userId with
  | Some u =>
      if truthy u
      then "https://graph.microsoft.com/v1.0/users/" ++ u ++ "/onlineMeetings"
      else "https://graph.microsoft.com/v1.0/me/onlineMeetings"
  | None => "https://graph.microsoft.com/v1.0/me/onlineMeetings"
  end.

(** The [meetingPayload] object literal of [createMeeting]; a spread of a
    falsy [description] adds no key. *)
Definition meetingPayload (meetingData : MeetingSchedulerInput)
    : list (string * value) :=
  [("startDateTime", VStr (startDateTime meetingData));
   ("endDateTime", VStr (endDateTime meetingData));
   ("subject", VStr (subject meetingData))]
  ++ match description meetingData with
     | Some d => if truthy d then [("externalId", VStr d)] else []
     | None => []
     end
  ++ [("allowAttendeeToEnableCamera",
        VBool (nullish (allowCamera meetingData) true));
      ("allowAttendeeToEnableMic",
        VBool (nullish (allowMicrophone meetingData) true));
      ("allowRecording", VBool (nullish (allowRecording meetingData) false));
      ("allowMeetingChat", VStr "enabled");
      ("allowedPresenters", VStr "everyone")].

(** [`Bearer ${this.accessToken}`]. *)
Definition bearer (token : option string) : string :=
  "Bearer " ++ match token with
               | Some t => t
               | None => "null"
               end.

Definition meeting_request (c : MicrosoftGraphClient)
    (meetingData : MeetingSchedulerInput) (userId : option string) : Request :=
  mkRequest (endpoint_of userId) "POST"
    [("Authorization", bearer (accessToken c));
     ("Content-Type", "application/json")]
    (Json (meetingPayload meetingData)).

Section Client.

Variable env : Env.

(** [this.accessToken && Date.now() < this.tokenExpiry]: the clock is read
    only when the token is truthy. *)
Definition token_still_valid : Method bool :=
  c <- this ;;
  if truthy_opt (accessToken c)
  then now <- in_world (Date_now env) ;; ret (now <? tokenExpiry c)
  else ret false.

Definition authenticate : Method unit :=
  valid <- token_still_valid ;;
  if valid then ret tt
  else
    c <- this ;;
    try_catch
      (response <- in_world (fetch (token_endpoint env) (token_request c)) ;;
       if negb (ok response)
       then throw ("Authentication failed: " ++ string_of_Z (status response)
                   ++ " - " ++ text response)
       else
         data <- response_json response ;;
         assign (set_accessToken (access_token data)) ;;;
         now <- in_world (Date_now env) ;;
         assign (set_tokenExpiry (now + (expires_in data - 60) * 1000)))
      (fun message =>
         throw ("Failed to authenticate with Microsoft Graph: " ++ message)).

Definition createMeeting (meetingData : MeetingSchedulerInput)
    (userId : option string) : Method value :=
  authenticate ;;;
  c <- this ;;
  try_catch
    (response <- in_world (fetch (graph_endpoint env)
                             (meeting_request c meetingData userId)) ;;
     if negb (ok response)
     then throw ("Meeting creation failed: " ++ string_of_Z (status response)
                 ++ " - " ++ text response)
     else response_json response)
    (fun message => throw ("Failed to create Teams meeting: " ++ message)).

End Client.

(** *** States of the token cache *)

Section Cache.

Variable env : Env.

(** The client after a successful exchange that yielded [d], the clock
    showing [now] when the expiry was stored. *)
Definition renewed (c : MicrosoftGraphClient) (d : TokenData) (now : Z)
    : MicrosoftGraphClient :=
  mkClient (clientId c) (clientSecret c) (tenantId c) (Some (access_token d))
    (now + (expires_in d - 60) * 1000).

(** The cache test of [authenticate] on client [c] in world [w]. *)
Definition cache_hit (c : MicrosoftGraphClient) (w : World) : bool :=
  truthy_opt (accessToken c) && (now_at env (clock_reads w) <? tokenExpiry c).

(** The world once the cache test is over: the clock was read exactly
    when there was a token to test. *)
Definition tested (c : MicrosoftGraphClient) (w : World) : World :=
  if truthy_opt (accessToken c) then tick w else w.

End Cache.

(** ** The tool: [createTool({ ..., execute })] *)

(** The shapes of the context and of the result. *)
Module Tool.

Record ExecutionContext : Type := mkContext {
  executionId : string;
  (** [context.timestamp.toISOString()]. *)
  timestamp : string
}.

Record Settings : Type := mkSettings {
  allow_camera : value;
  allow_microphone : value;
  allow_recording : value;
  chat_enabled : bool
}.

Record MeetingInfo : Type := mkMeetingInfo {
  meeting_id : value;
  join_url : value;
  conference_id : value;
  dial_in_url : value;
  subject : value;
  start_time : value;
  end_time : value;
  created_at : value;
  organizer : value;
  settings : Settings
}.

Record Metadata : Type := mkMetadata {
  execution_id : string;
  timestamp_iso : string;
  tool_version : string;
  provider : string
}.

Record ResultData : Type := mkData {
  meeting : MeetingInfo;
  summary : string;
  attendees_count : nat;
  instructions : list string;
  metadata : Metadata
}.

Record ToolResult : Type := mkResult {
  status : string;
  data : ResultData
}.

End Tool.

(** The argument object of the call to [createMeeting]: every optional key
    is spread in only when its guard holds (an array is always truthy). *)
Definition meetingData_of (input : MeetingSchedulerInput)
    : MeetingSchedulerInput :=
  mkInput (subject input) (startDateTime input) (endDateTime input)
    (attendees input)
    (if truthy_opt (description input) then description input else None)
    (allowCamera input) (allowMicrophone input) (allowRecording input).

(** The [meetingInfo] object literal: the response normalisation. *)
Definition meetingInfo_of {S} (meetingResult : value) : M S Tool.MeetingInfo :=
  id <- of_outcome (get meetingResult "id") ;;
  joinUrl <- of_outcome (get meetingResult "joinUrl") ;;
  audioConferencing1 <- of_outcome (get meetingResult "audioConferencing") ;;
  audioConferencing2 <- of_outcome (get meetingResult "audioConferencing") ;;
  subject <- of_outcome (get meetingResult "subject") ;;
  startDateTime <- of_outcome (get meetingResult "startDateTime") ;;
  endDateTime <- of_outcome (get meetingResult "endDateTime") ;;
  creationDateTime <- of_outcome (get meetingResult "creationDateTime") ;;
  organizer <- of_outcome (get meetingResult "organizer") ;;
  allowAttendeeToEnableCamera <-
    of_outcome (get meetingResult "allowAttendeeToEnableCamera") ;;
  allowAttendeeToEnableMic <-
    of_outcome (get meetingResult "allowAttendeeToEnableMic") ;;
  allowRecording <- of_outcome (get meetingResult "allowRecording") ;;
  allowMeetingChat <- of_outcome (get meetingResult "allowMeetingChat") ;;
  ret (Tool.mkMeetingInfo id joinUrl
         (get_opt audioConferencing1 "conferenceId")
         (get_opt audioConferencing2 "dialinUrl")
         subject startDateTime endDateTime creationDateTime
         (get_opt (get_opt organizer "user") "displayName")
         (Tool.mkSettings allowAttendeeToEnableCamera allowAttendeeToEnableMic
            allowRecording (strict_eq_str allowMeetingChat "enabled"))).

Definition recording_instruction (allowRecording : option bool) : string :=
  if truthy_flag allowRecording
  then "Recording is enabled for this meeting"
  else "Recording is disabled for this meeting".

(** [input.attendees?.length || 0]. *)
Definition count_attendees (attendees : option (list string)) : nat :=
  match attendees with
  | Some l => length l
  | None => 0%nat
  end.

(** The object returned on success. *)
Definition success (input : MeetingSchedulerInput) (context : Tool.ExecutionContext)
    (meetingInfo : Tool.MeetingInfo) : Tool.ToolResult :=
  Tool.mkResult "success"
    (Tool.mkData meetingInfo
       ("Successfully created Teams meeting " ++ dquote ++ subject input
        ++ dquote ++ " for " ++ startDateTime input)
       (count_attendees (attendees input))
       ["Share the join URL with attendees to join the meeting";
        "Meeting will be available 15 minutes before the start time";
        recording_instruction (allowRecording input)]
       (Tool.mkMetadata (Tool.executionId context) (Tool.timestamp context) "1.0.0"
          "Microsoft Teams via Graph API")).

(** The cases the [catch] block of [execute] tells apart, by the marker it
    looks for in the message: [Authentication failed] first,
    [Meeting creation failed] otherwise.  Their names are given here: the
    code computes no kind and attaches no code to the error, it only
    appends the hint of [with_hint]. *)
Inductive ErrorKind : Type :=
| AUTHENTICATION_ERROR
| MEETING_CREATION_ERROR
| OTHER_ERROR.

Definition error_kind (errorMessage : string) : ErrorKind :=
  if includes "Authentication failed" errorMessage then AUTHENTICATION_ERROR
  else if includes "Meeting creation failed" errorMessage
  then MEETING_CREATION_ERROR
  else OTHER_ERROR.

(** The hint the [catch] block of [execute] appends to the message. *)
Definition with_hint (errorMessage : string) : string :=
  match error_kind errorMessage with
  | AUTHENTICATION_ERROR =>
      errorMessage ++ " - Please verify your Microsoft Graph API credentials"
  | MEETING_CREATION_ERROR =>
      errorMessage ++ " - Please check if the user has required permissions"
  | OTHER_ERROR => errorMessage
  end.

Section Execute.

Variable env : Env.

(** The body of the [try] block of [execute] (the two [console.log] lines
    before it write to the log only). *)
Definition execute_body (input : MeetingSchedulerInput)
    (config : MeetingSchedulerConfig) (context : Tool.ExecutionContext)
    : M World Tool.ToolResult :=
  match client_id config, client_secret config, tenant_id config with
  | Some cid, Some csecret, Some tid =>
      if negb (truthy cid && truthy csecret && truthy tid)
      then throw "Missing required Microsoft Graph API configuration: client_id, client_secret, and tenant_id are required"
      else
        match date_parse env (startDateTime input),
              date_parse env (endDateTime input) with
        | Some startTime, Some endTime =>
            if endTime <=? startTime
            then throw "End time must be after start time"
            else
              now <- Date_now env ;;
              if startTime <? now
              then throw "Cannot schedule meetings in the past"
              else
                meetingResult <-
                  on_object (new_MicrosoftGraphClient cid csecret tid)
                    (createMeeting env (meetingData_of input) (user_id config)) ;;
                meetingInfo <- meetingInfo_of meetingResult ;;
                ret (success input context meetingInfo)
        | _, _ =>
            throw "Invalid date format. Please use ISO format (e.g., 2025-09-03T14:30:00Z)"
        end
  | _, _, _ =>
      throw "Missing required Microsoft Graph API configuration: client_id, client_secret, and tenant_id are required"
  end.

Definition execute (input : MeetingSchedulerInput)
    (config : MeetingSchedulerConfig) (context : Tool.ExecutionContext)
    : M World Tool.ToolResult :=
  try_catch (execute_body input config context)
    (fun errorMessage =>
       throw ("Failed to create Teams meeting: " ++ with_hint errorMessage)).

End Execute.

(** ** The stand-alone Express server: [app.post('/api/execute', ...)]

    Its [MicrosoftGraphClient] class is, line for line, the class above;
    [createMeeting] receives [input_data] as it came. *)

(** The shapes of the request body and of the reply. *)
Module Server.

(** [req.body.input_data]: any key may be missing. *)
Record InputData : Type := mkInputData {
  subject : option string;
  startDateTime : option string;
  endDateTime : option string;
  attendees : option (list string);
  description : option string;
  allowCamera : option bool;
  allowMicrophone : option bool;
  allowRecording : option bool
}.

Record RequestBody : Type := mkBody {
  input_data : option InputData;
  config : option MeetingSchedulerConfig
}.

Record Meeting : Type := mkMeeting {
  meeting_id : value;
  join_url : value;
  meeting_subject : value;
  start_time : value;
  end_time : value
}.

(** The JSON document of the reply; [timestamp] is the clock value that
    [new Date().toISOString()] renders. *)
Inductive Envelope : Type :=
| Failure (execution_id error_code error_message : string)
    (missingKeys : option (list string)) (timestamp : Z)
| Success (execution_id : string) (meeting : Meeting) (summary : string)
    (timestamp : Z).

(** [res.status(code).json(document)]; [res.json] alone is status 200. *)
Record Reply : Type := mkReply {
  code : Z;
  document : Envelope
}.

Definition error_code_of (r : Reply) : option string :=
  match document r with
  | Failure _ c _ _ _ => Some c
  | Success _ _ _ _ => None
  end.

Definition error_message_of (r : Reply) : option string :=
  match document r with
  | Failure _ _ m _ _ => Some m
  | Success _ _ _ _ => None
  end.

End Server.

(** [config?.key]. *)
Definition config_key (config : option MeetingSchedulerConfig)
    (key : MeetingSchedulerConfig -> option string) : option string :=
  match config with
  | Some c => key c
  | None => None
  end.

(** [config?.key || process.env.NAME]. *)
Definition setting (env : Env) (config : option MeetingSchedulerConfig)
    (key : MeetingSchedulerConfig -> option string) (name : string)
    : option string :=
  or_else (config_key config key) (process_env env name).

(** [input_data?.key]. *)
Definition input_key (input_data : option Server.InputData)
    (key : Server.InputData -> option string) : option string :=
  match input_data with
  | Some d => key d
  | None => None
  end.

(** [[!clientId && 'client_id', ...].filter(Boolean)]. *)
Definition missingKeys (clientId clientSecret tenantId : option string)
    : list string :=
  (if truthy_opt clientId then [] else ["client_id"])
  ++ (if truthy_opt clientSecret then [] else ["client_secret"])
  ++ (if truthy_opt tenantId then [] else ["tenant_id"]).

(** [input_data] as the argument of [createMeeting], once the three
    required keys are known to be there. *)
Definition meetingData_of_input_data (d : Server.InputData)
    (subject startDateTime endDateTime : string) : MeetingSchedulerInput :=
  mkInput subject startDateTime endDateTime (Server.attendees d)
    (Server.description d) (Server.allowCamera d) (Server.allowMicrophone d)
    (Server.allowRecording d).

Section Handler.

Variable env : Env.

(** [generateId()]. *)
Definition generateId : M World string :=
  now <- Date_now env ;;
  suffix <- Math_random env ;;
  ret ("exec_" ++ string_of_Z now ++ "_" ++ suffix).

(** [res.status(code).json({ ..., status: 'error', ... })]. *)
Definition reply_error (code : Z) (executionId error_code error_message : string)
    (details : option (list string)) : M World Server.Reply :=
  now <- Date_now env ;;
  ret (Server.mkReply code
         (Server.Failure executionId error_code error_message details now)).

(** The body of the handler's [try] block, from the configuration check on. *)
Definition handle_body (executionId : string) (body : Server.RequestBody)
    : M World Server.Reply :=
  let input_data := Server.input_data body in
  let config := Server.config body in
  let clientId := setting env config client_id "CLIENT_ID" in
  let clientSecret := setting env config client_secret "CLIENT_SECRET" in
  let tenantId := setting env config tenant_id "TENANT_ID" in
  let userId := setting env config user_id "USER_ID" in
  match clientId, clientSecret, tenantId with
  | Some cid, Some csecret, Some tid =>
      if negb (truthy cid && truthy csecret && truthy tid)
      then reply_error 400 executionId "CONFIGURATION_ERROR"
             "Missing required Microsoft Graph API configuration"
             (Some (missingKeys clientId clientSecret tenantId))
      else
        match input_data,
              input_key input_data Server.subject,
              input_key input_data Server.startDateTime,
              input_key input_data Server.endDateTime with
        | Some d, Some subject, Some startDateTime, Some endDateTime =>
            if negb (truthy subject && truthy startDateTime && truthy endDateTime)
            then reply_error 400 executionId "VALIDATION_ERROR"
                   "Missing required input fields" None
            else
              match date_parse env startDateTime, date_parse env endDateTime with
              | Some startTime, Some endTime =>
                  if endTime <=? startTime
                  then reply_error 400 executionId "VALIDATION_ERROR"
                         "End time must be after start time" None
                  else
                    meetingResult <-
                      on_object (new_MicrosoftGraphClient cid csecret tid)
                        (createMeeting env
                           (meetingData_of_input_data d subject startDateTime
                              endDateTime)
                           userId) ;;
                    id <- of_outcome (get meetingResult "id") ;;
                    joinUrl <- of_outcome (get meetingResult "joinUrl") ;;
                    subject' <- of_outcome (get meetingResult "subject") ;;
                    startDateTime' <- of_outcome (get meetingResult "startDateTime") ;;
                    endDateTime' <- of_outcome (get meetingResult "endDateTime") ;;
                    now <- Date_now env ;;
                    ret (Server.mkReply 200
                           (Server.Success executionId
                              (Server.mkMeeting id joinUrl subject'
                                 startDateTime' endDateTime')
                              ("Successfully created Teams meeting " ++ dquote
                               ++ subject ++ dquote)
                              now))
              | _, _ =>
                  reply_error 400 executionId "VALIDATION_ERROR"
                    "Invalid date format. Please use ISO format" None
              end
        | _, _, _, _ =>
            reply_error 400 executionId "VALIDATION_ERROR"
              "Missing required input fields" None
        end
  | _, _, _ =>
      reply_error 400 executionId "CONFIGURATION_ERROR"
        "Missing required Microsoft Graph API configuration"
        (Some (missingKeys clientId clientSecret tenantId))
  end.

(** The handler of [POST /api/execute]. *)
Definition post_api_execute (body : Server.RequestBody) : M World Server.Reply :=
  executionId <- generateId ;;
  try_catch (handle_body executionId body)
    (fun message => reply_error 500 executionId "INTERNAL_ERROR" message None).

End Handler.

(** ** Observations on the world *)

(** A credential exchange is a request to the directory's token endpoint;
    a meeting creation is a request to the Graph API. *)
Definition is_token_request (r : Request) : bool :=
  String.prefix "https://login.microsoftonline.com/" (url r).

Definition is_meeting_request (r : Request) : bool :=
  String.prefix "https://graph.microsoft.com/" (url r).

Definition credential_exchanges (w : World) : nat :=
  length (filter is_token_request (requests w)).

Definition meeting_creations (w : World) : nat :=
  length (filter is_meeting_request (requests w)).

(** ** A concrete runtime, for running the model

    [iso_utc] is [Date.parse] restricted to the profile
    [YYYY-MM-DDTHH:MM:SSZ]; any other text is [NaN] here. *)

Definition digit (c : ascii) : option Z :=
  let n := Z.of_nat (nat_of_ascii c) in
  if (48 <=? n) && (n <=? 57) then Some (n - 48) else None.

Fixpoint number_from (acc : Z) (s : string) : option Z :=
  match s with
  | EmptyString => Some acc
  | String c rest =>
      match digit c with
      | Some d => number_from (10 * acc + d) rest
      | None => None
      end
  end.

Definition number (s : string) : option Z :=
  match s with
  | EmptyString => None
  | _ => number_from 0 s
  end.

Definition is_leap (y : Z) : bool :=
  ((y mod 4 =? 0) && negb (y mod 100 =? 0)) || (y mod 400 =? 0).

Definition days_in_month (y m : Z) : Z :=
  if m =? 2 then (if is_leap y then 29 else 28)
  else if (m =? 4) || (m =? 6) || (m =? 9) || (m =? 11) then 30
  else 31.

(** Days from 1970-01-01 to the civil date, in the proleptic Gregorian
    calendar. *)
Definition days_from_civil (y m d : Z) : Z :=
  let y' := if m <=? 2 then y - 1 else y in
  let era := y' / 400 in
  let yoe := y' - era * 400 in
  let mp := (m + 9) mod 12 in
  let doy := (153 * mp + 2) / 5 + d - 1 in
  let doe := yoe * 365 + yoe / 4 - yoe / 100 + doy in
  era * 146097 + doe - 719468.

Definition iso_utc (s : string) : option Z :=
  if negb (Nat.eqb (String.length s) 20) then None
  else if negb (String.eqb (substring 4 1 s) "-" && String.eqb (substring 7 1 s) "-"
                && String.eqb (substring 10 1 s) "T"
                && String.eqb (substring 13 1 s) ":"
                && String.eqb (substring 16 1 s) ":"
                && String.eqb (substring 19 1 s) "Z")
  then None
  else
    match number (substring 0 4 s), number (substring 5 2 s),
          number (substring 8 2 s), number (substring 11 2 s),
          number (substring 14 2 s), number (substring 17 2 s) with
    | Some y, Some m, Some d, Some h, Some mi, Some sec =>
        if (1 <=? m) && (m <=? 12) && (1 <=? d) && (d <=? days_in_month y m)
           && (h <=? 23) && (mi <=? 59) && (sec <=? 59)
        then Some ((((days_from_civil y m d * 24 + h) * 60 + mi) * 60 + sec) * 1000)
        else None
    | _, _, _, _, _, _ => None
    end.

(** A provider that issues the token [t] for [ttl] seconds and creates
    every meeting, answering with [meeting]; the clock shows [t0] at its
    first read and advances by [step] milliseconds per read. *)
Definition provider (t0 step : Z) (t : string) (ttl : Z) (meeting : value)
    : Env :=
  mkEnv iso_utc
    (fun n => t0 + step * Z.of_nat n)
    (fun _ => "k3x9f")
    (fun _ => None)
    (fun _ _ => Responded (mkResponse 200 "{...}" (Data (mkTokenData t ttl))))
    (fun _ _ => Responded (mkResponse 201 "{...}" (Data meeting))).

(** A provider whose token endpoint refuses the credentials. *)
Definition refusing_provider (t0 : Z) (code : Z) (errorText : string) : Env :=
  mkEnv iso_utc
    (fun n => t0 + Z.of_nat n)
    (fun _ => "k3x9f")
    (fun _ => None)
    (fun _ _ => Responded (mkResponse code errorText (SyntaxError "Unexpected token")))
    (fun _ _ => Responded (mkResponse 201 "{...}" (Data VNull))).

(** 2027-01-15T08:00:00Z. *)
Definition t_2027 : Z := 1800000000000.

(** Tokens last an hour and the clock advances half an hour per read: a
    token is in its validity window at the read after it was stored, and
    past its stored expiry at the one after. *)
Definition half_hourly : Env :=
  provider t_2027 1800000 "eyJ0eXAi" 3600
    (VObj [("id", VStr "MSpk"); ("joinUrl", VStr "https://teams.microsoft.com/l/meetup-join/19")]).

(** The credentials are refused with 401. *)
Definition unauthorized : Env :=
  refusing_provider t_2027 401 "{error:invalid_client}".

Definition standup : MeetingSchedulerInput :=
  mkInput "Standup" "2030-01-01T09:00:00Z" "2030-01-01T09:30:00Z"
    None None None None None.

Definition credentials : MeetingSchedulerConfig :=
  mkConfig (Some "app-id") (Some "app-secret") (Some "contoso") None.

Definition created_meeting : value :=
  VObj [("id", VStr "MSpk");
        ("joinUrl", VStr "https://teams.microsoft.com/l/meetup-join/19");
        ("subject", VStr "Standup");
        ("startDateTime", VStr "2030-01-01T09:00:00Z");
        ("endDateTime", VStr "2030-01-01T09:30:00Z");
        ("allowMeetingChat", VStr "enabled")].

Definition context_1 : Tool.ExecutionContext :=
  Tool.mkContext "exec-1" "2027-01-15T08:00:00.000Z".

(** The three credentials of [config], each truthy. *)
Definition config_complete (clientId clientSecret tenantId : option string)
    : bool :=
  truthy_opt clientId && truthy_opt clientSecret && truthy_opt tenantId.

(** The same input with another list of attendees. *)
Definition with_attendees (a : option (list string))
    (input : MeetingSchedulerInput) : MeetingSchedulerInput :=
  mkInput (subject input) (startDateTime input) (endDateTime input) a
    (description input) (allowCamera input) (allowMicrophone input)
    (allowRecording input).

Definition with_attendees_data (a : option (list string))
    (d : Server.InputData) : Server.InputData :=
  Server.mkInputData (Server.subject d) (Server.startDateTime d)
    (Server.endDateTime d) a (Server.description d) (Server.allowCamera d)
    (Server.allowMicrophone d) (Server.allowRecording d).

(** The same result with another count of attendees. *)
Definition with_count (n : nat) (r : Tool.ToolResult) : Tool.ToolResult :=
  Tool.mkResult (Tool.status r)
    (Tool.mkData (Tool.meeting (Tool.data r)) (Tool.summary (Tool.data r)) n
       (Tool.instructions (Tool.data r)) (Tool.metadata (Tool.data r))).

(** A request body for the handler. *)
Definition body_of (subject : option string) (startDateTime endDateTime : string)
    : Server.RequestBody :=
  Server.mkBody
    (Some (Server.mkInputData subject (Some startDateTime) (Some endDateTime)
             None None None None None))
    (Some credentials).

(** Between [w] and [w'] exactly two requests were sent: a credential
    exchange by a client whose cache was empty, then a meeting creation
    bearing the token that this exchange returned. *)
Definition own_exchange (env : Env) (w w' : World) : Prop :=
  exists c0 tr td creation,
    accessToken c0 = None
    /\ tokenExpiry c0 = 0
    /\ token_endpoint env (requests w) (token_request c0) = Responded tr
    /\ json tr = Data td
    /\ requests w' = (requests w ++ [token_request c0; creation])%list
    /\ is_meeting_request creation = true
    /\ In ("Authorization", bearer (Some (access_token td))) (headers creation).

(** The checks of [execute] that come before it constructs the client,
    [now] being the clock value the last of them reads: the credentials
    are there, both dates parse, the end is after the start, and the start
    is not before [now]. *)
Definition passes_validation (env : Env) (input : MeetingSchedulerInput)
    (config : MeetingSchedulerConfig) (now : Z) : bool :=
  config_complete (client_id config) (client_secret config) (tenant_id config)
  && match date_parse env (startDateTime input),
           date_parse env (endDateTime input) with
     | Some startTime, Some endTime =>
         (startTime <? endTime) && (now <=? startTime)
     | _, _ => false
     end.

(** The checks of the handler that come before it constructs the client. *)
Definition handler_accepts (env : Env) (body : Server.RequestBody) : bool :=
  config_complete (setting env (Server.config body) client_id "CLIENT_ID")
    (setting env (Server.config body) client_secret "CLIENT_SECRET")
    (setting env (Server.config body) tenant_id "TENANT_ID")
  && match Server.input_data body with
     | Some d =>
         truthy_opt (Server.subject d)
         && truthy_opt (Server.startDateTime d)
         && truthy_opt (Server.endDateTime d)
         && match Server.startDateTime d, Server.endDateTime d with
            | Some s, Some e =>
                match date_parse env s, date_parse env e with
                | Some startTime, Some endTime => startTime <? endTime
                | _, _ => false
                end
            | _, _ => false
            end
     | None => false
     end.


(** A provider that issues the token [t] for [ttl] seconds and refuses
    every meeting with [code] and [errorText]. *)
Definition forbidding_provider (t0 step : Z) (t : string) (ttl : Z)
    (code : Z) (errorText : string) : Env :=
  mkEnv iso_utc
    (fun n => t0 + step * Z.of_nat n)
    (fun _ => "k3x9f")
    (fun _ => None)
    (fun _ _ => Responded (mkResponse 200 "{...}" (Data (mkTokenData t ttl))))
    (fun _ _ => Responded (mkResponse code errorText (SyntaxError "Unexpected token"))).

(** A runtime that cannot reach the directory. *)
Definition offline : Env :=
  mkEnv iso_utc
    (fun n => t_2027 + Z.of_nat n)
    (fun _ => "k3x9f")
    (fun _ => None)
    (fun _ _ => Rejected "fetch failed")
    (fun _ _ => Rejected "fetch failed").

(** The [execution_id] of a reply. *)
Definition execution_id_of (r : Server.Reply) : string :=
  match Server.document r with
  | Server.Failure id _ _ _ _ => id
  | Server.Success id _ _ _ => id
  end.

(** The [error_details.missingKeys] of a reply. *)
Definition missing_keys_of (r : Server.Reply) : option (list string) :=
  match Server.document r with
  | Server.Failure _ _ _ keys _ => keys
  | Server.Success _ _ _ _ => None
  end.

(** The body that carries [input] and [config] to the handler. *)
Definition body_for (input : MeetingSchedulerInput)
    (config : MeetingSchedulerConfig) : Server.RequestBody :=
  Server.mkBody
    (Some (Server.mkInputData (Some (subject input))
             (Some (startDateTime input)) (Some (endDateTime input))
             (attendees input) (description input) (allowCamera input)
             (allowMicrophone input) (allowRecording input)))
    (Some config).

(** * Properties *)

(** ** Strings *)

(** A string starts with each of its prefixes. *)
Lemma prefix_app (n s : string) : String.prefix n (n ++ s) = true.
Proof.
  induction n as [| c n IH]; simpl.
  - now destruct s.
  - destruct (ascii_dec c c) as [_ | ne]; [exact IH | now elim ne].
Qed.

(** Two prefixes of one string: one is a prefix of the other. *)
Lemma prefix_comparable (a b s : string) :
  String.prefix a s = true -> String.prefix b s = true ->
  String.prefix a b = true \/ String.prefix b a = true.
Proof.
  revert b s. induction a as [| x a IH]; intros b s Ha Hb.
  - left. now destruct b.
  - destruct b as [| y b]; [right; reflexivity |].
    destruct s as [| z s]; [discriminate |].
    cbn [String.prefix] in *.
    destruct (ascii_dec x z) as [-> |]; [| discriminate].
    destruct (ascii_dec y z) as [-> |]; [| discriminate].
    destruct (ascii_dec z z) as [_ | ne]; [| now elim ne].
    exact (IH b s Ha Hb).
Qed.

(** [includes] finds a needle wherever it stands. *)
Lemma includes_here (n s : string) : includes n (n ++ s) = true.
Proof.
  destruct n as [| c n]; [now destruct s |].
  change (includes (String c n) (String c n ++ s))
    with (if String.prefix (String c n) (String c n ++ s) then true
          else includes (String c n) (n ++ s)).
  now rewrite prefix_app.
Qed.

Lemma includes_later (n p s : string) :
  includes n s = true -> includes n (p ++ s) = true.
Proof.
  intros H. induction p as [| c p IH]; [exact H |].
  change (includes n (String c p ++ s))
    with (if String.prefix n (String c (p ++ s)) then true
          else includes n (p ++ s)).
  rewrite IH. now destruct (String.prefix n (String c (p ++ s))).
Qed.

Lemma append_assoc (a b c : string) : (a ++ b) ++ c = a ++ b ++ c.
Proof. induction a as [| x a IH]; [reflexivity | cbn; now rewrite IH]. Qed.

Lemma includes_infix (n p s : string) : includes n (p ++ n ++ s) = true.
Proof. apply includes_later, includes_here. Qed.

(** Evaluates a run of the model, leaving strings as they are written. *)
Ltac run := cbn -[String.append string_of_Z includes String.prefix Z.add Z.mul
                  Z.sub Z.ltb Z.leb authenticate createMeeting meetingInfo_of].

Ltac run_in H := cbn -[String.append string_of_Z includes String.prefix Z.add
                       Z.mul Z.sub Z.ltb Z.leb authenticate createMeeting
                       meetingInfo_of] in H.

(** ** The client *)

Section ClientFacts.

Variable env : Env.

(** [authenticate] on a cache hit: the early [return]. *)
Lemma authenticate_hit c w :
  cache_hit env c w = true ->
  authenticate env (c, w) = (Returned tt, (c, tick w)).
Proof.
  unfold cache_hit. intros H. apply andb_true_iff in H as [Ht Hn].
  unfold authenticate, token_still_valid, bind, this, gets, in_world, Date_now,
    ret.
  run. rewrite Ht. run. now rewrite Hn.
Qed.

(** [authenticate] on a cache miss, by what the token endpoint answers. *)
Lemma authenticate_miss c w :
  cache_hit env c w = false ->
  authenticate env (c, w) =
    let w1 := tested c w in
    let failed message :=
      (Thrown ("Failed to authenticate with Microsoft Graph: " ++ message),
       (c, sent (token_request c) w1)) in
    match token_endpoint env (requests w) (token_request c) with
    | Rejected message => failed message
    | Responded r =>
        if ok r then
          match json r with
          | SyntaxError message => failed message
          | Data d =>
              (Returned tt,
               (renewed c d (now_at env (clock_reads w1)),
                tick (sent (token_request c) w1)))
          end
        else failed ("Authentication failed: " ++ string_of_Z (status r)
                     ++ " - " ++ text r)
    end.
Proof.
  unfold cache_hit, tested. intros H.
  unfold authenticate, token_still_valid, bind, this, gets, in_world, Date_now,
    ret, try_catch, fetch, throw, response_json, assign, modify, renewed.
  run.
  destruct (truthy_opt (accessToken c)); run.
  - simpl in H. rewrite H. run.
    destruct (token_endpoint env (requests w) (token_request c)) as [m | r];
      [reflexivity |].
    run. destruct (ok r); run; [| reflexivity].
    destruct (json r); reflexivity.
  - destruct (token_endpoint env (requests w) (token_request c)) as [m | r];
      [reflexivity |].
    run. destruct (ok r); run; [| reflexivity].
    destruct (json r); reflexivity.
Qed.

(** The part of [createMeeting] after [authenticate] has returned. *)
Lemma createMeeting_run d u c w :
  createMeeting env d u (c, w) =
    match authenticate env (c, w) with
    | (Thrown message, s) => (Thrown message, s)
    | (Returned _, (c1, w1)) =>
        let req := meeting_request c1 d u in
        let failed message :=
          (Thrown ("Failed to create Teams meeting: " ++ message),
           (c1, sent req w1)) in
        match graph_endpoint env (requests w1) req with
        | Rejected message => failed message
        | Responded r =>
            if ok r then
              match json r with
              | SyntaxError message => failed message
              | Data meetingResult => (Returned meetingResult, (c1, sent req w1))
              end
            else failed ("Meeting creation failed: " ++ string_of_Z (status r)
                         ++ " - " ++ text r)
        end
    end.
Proof.
  unfold createMeeting, bind at 1.
  destruct (authenticate env (c, w)) as [[[] | m] [c1 w1]]; [| reflexivity].
  unfold bind, this, gets, in_world, try_catch, fetch, throw, response_json, ret.
  run.
  destruct (graph_endpoint env (requests w1) (meeting_request c1 d u)) as [m | r];
    [reflexivity |].
  run. destruct (ok r); run; [| reflexivity].
  destruct (json r); reflexivity.
Qed.

End ClientFacts.

(** ** Counting requests *)

Lemma token_request_is_exchange c : is_token_request (token_request c) = true.
Proof. apply prefix_app. Qed.

Lemma meeting_request_is_creation c d u :
  is_meeting_request (meeting_request c d u) = true
  /\ is_token_request (meeting_request c d u) = false.
Proof.
  unfold is_meeting_request, is_token_request, meeting_request, endpoint_of.
  cbn [url]. destruct u as [u |]; [destruct (truthy u) |]; split; reflexivity.
Qed.

Lemma token_request_is_no_creation c :
  is_meeting_request (token_request c) = false.
Proof. reflexivity. Qed.

Lemma exchanges_sent r w :
  credential_exchanges (sent r w)
  = (credential_exchanges w + if is_token_request r then 1 else 0)%nat.
Proof.
  unfold credential_exchanges, sent. cbn [requests].
  rewrite filter_app, length_app. cbn [filter].
  now destruct (is_token_request r).
Qed.

Lemma exchanges_tick w : credential_exchanges (tick w) = credential_exchanges w.
Proof. reflexivity. Qed.

Section CacheFacts.

Variable env : Env.

Lemma requests_tested c w : requests (tested c w) = requests w.
Proof. unfold tested. now destruct (truthy_opt (accessToken c)). Qed.

(** A cache hit sends nothing and leaves the client as it was. *)
Lemma authenticate_hit_quiet c w :
  truthy_opt (accessToken c) = true ->
  now_at env (clock_reads w) < tokenExpiry c ->
  authenticate env (c, w) = (Returned tt, (c, tick w)).
Proof.
  intros Ht Hn. apply authenticate_hit. unfold cache_hit. rewrite Ht.
  now apply Z.ltb_lt in Hn as ->.
Qed.

(** A cache miss sends exactly the token request, whatever comes back. *)
Lemma authenticate_miss_requests c w o c' w' :
  cache_hit env c w = false ->
  authenticate env (c, w) = (o, (c', w')) ->
  requests w' = (requests w ++ [token_request c])%list.
Proof.
  intros Hm. rewrite (authenticate_miss env c w Hm). cbv zeta.
  destruct (token_endpoint env (requests w) (token_request c)) as [m | r].
  - intros [= _ _ <-]. cbn [sent requests]. now rewrite requests_tested.
  - destruct (ok r); [destruct (json r) |]; intros [= _ _ <-];
      cbn [tick sent requests]; now rewrite requests_tested.
Qed.

(** What [createMeeting] sends after [authenticate] is at most one request,
    to the Graph API. *)
Lemma createMeeting_after_authenticate d u c w o c' w' :
  createMeeting env d u (c, w) = (o, (c', w')) ->
  exists oa wa,
    authenticate env (c, w) = (oa, (c', wa))
    /\ credential_exchanges w' = credential_exchanges wa
    /\ (oa = Returned tt ->
        requests w' = (requests wa ++ [meeting_request c' d u])%list)
    /\ (forall m, oa = Thrown m -> o = Thrown m /\ w' = wa).
Proof.
  rewrite createMeeting_run.
  destruct (authenticate env (c, w)) as [[[] | m] [c1 w1]].
  - cbv zeta. intros H. exists (Returned tt), w1.
    assert (E : c' = c1 /\ w' = sent (meeting_request c1 d u) w1).
    { destruct (graph_endpoint env (requests w1) (meeting_request c1 d u))
        as [m | r]; [now inversion H |].
      destruct (ok r); [destruct (json r) |]; now inversion H. }
    destruct E as [-> ->]. split; [reflexivity | split; [| split]].
    + rewrite exchanges_sent.
      destruct (meeting_request_is_creation c1 d u) as [_ ->]. lia.
    + reflexivity.
    + discriminate.
  - intros [= <- <- <-]. exists (Thrown m), w1.
    split; [reflexivity | split; [reflexivity | split]].
    + discriminate.
    + now intros m' [= <-].
Qed.

End CacheFacts.

Lemma exchanges_after_request r w w' :
  requests w' = (requests w ++ [r])%list ->
  credential_exchanges w'
  = (credential_exchanges w + if is_token_request r then 1 else 0)%nat.
Proof.
  unfold credential_exchanges. intros ->.
  rewrite filter_app, length_app. cbn [filter].
  now destruct (is_token_request r).
Qed.

Lemma creations_after_request r w w' :
  requests w' = (requests w ++ [r])%list ->
  meeting_creations w'
  = (meeting_creations w + if is_meeting_request r then 1 else 0)%nat.
Proof.
  unfold meeting_creations. intros ->.
  rewrite filter_app, length_app. cbn [filter].
  now destruct (is_meeting_request r).
Qed.

(** A call of [createMeeting] that misses the cache performs exactly one
    credential exchange, whatever the provider answers. *)
Lemma createMeeting_miss_exchanges env d u c w o c' w' :
  cache_hit env c w = false ->
  createMeeting env d u (c, w) = (o, (c', w')) ->
  credential_exchanges w' = S (credential_exchanges w).
Proof.
  intros Hm H.
  destruct (createMeeting_after_authenticate env d u c w o c' w' H)
    as (oa & wa & Ha & Hx & _).
  rewrite Hx.
  rewrite (exchanges_after_request _ _ _
             (authenticate_miss_requests env c w oa c' wa Hm Ha)).
  rewrite token_request_is_exchange. lia.
Qed.

(** C1. On any client, [authenticate] called while a token is cached and
    the clock is before the stored expiry returns at once: nothing is sent
    and the client is unchanged (only the clock was read).  So, on a new
    client, a first [createMeeting] and a second one issued inside the
    validity window of the token the first one cached perform one
    credential exchange between them, and a third call issued at or after
    the stored expiry performs exactly one more. *)
Theorem token_cache_single_exchange
    (env : Env) (cid csecret tid : string)
    (d1 d2 d3 : MeetingSchedulerInput) (u1 u2 u3 : option string)
    (w0 w1 w2 w3 : World) (c1 c2 c3 : MicrosoftGraphClient)
    (o1 o2 o3 : Outcome value) :
  createMeeting env d1 u1 (new_MicrosoftGraphClient cid csecret tid, w0)
    = (o1, (c1, w1)) ->
  truthy_opt (accessToken c1) = true ->
  now_at env (clock_reads w1) < tokenExpiry c1 ->
  createMeeting env d2 u2 (c1, w1) = (o2, (c2, w2)) ->
  tokenExpiry c2 <= now_at env (clock_reads w2) ->
  createMeeting env d3 u3 (c2, w2) = (o3, (c3, w3)) ->
  (forall c w,
      truthy_opt (accessToken c) = true ->
      now_at env (clock_reads w) < tokenExpiry c ->
      authenticate env (c, w) = (Returned tt, (c, tick w))
      /\ requests (tick w) = requests w)
  /\ c2 = c1
  /\ credential_exchanges w1 = S (credential_exchanges w0)
  /\ credential_exchanges w2 = S (credential_exchanges w0)
  /\ credential_exchanges w3 = S (S (credential_exchanges w0)).
Proof.
  intros H1 Ht Hn H2 He H3.
  assert (X1 : credential_exchanges w1 = S (credential_exchanges w0))
    by (eapply createMeeting_miss_exchanges; [| exact H1]; reflexivity).
  destruct (createMeeting_after_authenticate env d2 u2 c1 w1 o2 c2 w2 H2)
    as (oa & wa & Ha & Hx & _).
  rewrite (authenticate_hit_quiet env c1 w1 Ht Hn) in Ha.
  injection Ha as <- <- <-.
  assert (X3 : credential_exchanges w3 = S (credential_exchanges w2)).
  { eapply createMeeting_miss_exchanges; [| exact H3].
    unfold cache_hit. apply andb_false_iff. right. now apply Z.ltb_ge. }
  split; [| split; [reflexivity | split; [exact X1 | split]]].
  - intros c w Hc Hw. split; [now apply authenticate_hit_quiet | reflexivity].
  - now rewrite Hx, exchanges_tick.
  - now rewrite X3, Hx, exchanges_tick, X1.
Qed.

Lemma token_cache_single_exchange_witness :
  let start := (new_MicrosoftGraphClient "app-id" "app-secret" "contoso",
                initial_world) in
  let first := createMeeting half_hourly standup None start in
  let second := createMeeting half_hourly standup None (snd first) in
  let third := createMeeting half_hourly standup None (snd second) in
  credential_exchanges (snd (snd first)) = 1%nat
  /\ credential_exchanges (snd (snd second)) = 1%nat
  /\ credential_exchanges (snd (snd third)) = 2%nat.
Proof.
  intros start first second third.
  destruct (token_cache_single_exchange half_hourly "app-id" "app-secret"
              "contoso" standup standup standup None None None
              initial_world (snd (snd first)) (snd (snd second))
              (snd (snd third)) (fst (snd first)) (fst (snd second))
              (fst (snd third)) (fst first) (fst second) (fst third))
    as (_ & _ & A & B & C).
  - vm_compute; reflexivity.
  - vm_compute; reflexivity.
  - vm_compute; reflexivity.
  - vm_compute; reflexivity.
  - vm_compute; discriminate.
  - vm_compute; reflexivity.
  - split; [exact A | split; [exact B | exact C]].
Defined.

(** C6. A credential exchange that succeeds with a time-to-live of
    [expires_in d] seconds stores, as the expiry of the cached token, the
    clock value [now] read once the answer is in, plus [expires_in d - 60]
    seconds (in milliseconds): the token counts as expired exactly 60
    seconds before the expiry the provider declared, which is what every
    later cache test compares the clock with. *)
Theorem token_expiry_margin
    (env : Env) (c : MicrosoftGraphClient) (w : World)
    (r : Response TokenData) (d : TokenData) :
  cache_hit env c w = false ->
  token_endpoint env (requests w) (token_request c) = Responded r ->
  ok r = true ->
  json r = Data d ->
  exists c' w' n,
    authenticate env (c, w) = (Returned tt, (c', w'))
    /\ clock_reads w' = S n
    /\ accessToken c' = Some (access_token d)
    /\ tokenExpiry c' = now_at env n + (expires_in d - 60) * 1000
    /\ tokenExpiry c' = (now_at env n + expires_in d * 1000) - 60 * 1000
    /\ (forall later,
         cache_hit env c' later
         = truthy (access_token d)
           && (now_at env (clock_reads later)
               <? (now_at env n + expires_in d * 1000) - 60 * 1000)).
Proof.
  intros Hm Hr Hok Hd.
  exists (renewed c d (now_at env (clock_reads (tested c w)))),
         (tick (sent (token_request c) (tested c w))),
         (clock_reads (tested c w)).
  split.
  { rewrite (authenticate_miss env c w Hm). cbv zeta.
    now rewrite Hr, Hok, Hd. }
  unfold cache_hit, renewed. cbn [clock_reads tick sent accessToken tokenExpiry
                                   truthy_opt].
  repeat split; try reflexivity; try lia.
  intros later. f_equal. f_equal. lia.
Qed.

Lemma token_expiry_margin_witness :
  exists c' w' n,
    authenticate half_hourly
      (new_MicrosoftGraphClient "app-id" "app-secret" "contoso", initial_world)
    = (Returned tt, (c', w'))
    /\ clock_reads w' = S n
    /\ accessToken c' = Some "eyJ0eXAi"
    /\ tokenExpiry c' = now_at half_hourly n + (3600 - 60) * 1000.
Proof.
  destruct (token_expiry_margin half_hourly
              (new_MicrosoftGraphClient "app-id" "app-secret" "contoso")
              initial_world
              (mkResponse 200 "{...}" (Data (mkTokenData "eyJ0eXAi" 3600)))
              (mkTokenData "eyJ0eXAi" 3600)
              eq_refl eq_refl eq_refl eq_refl)
    as (c' & w' & n & Ha & Hn & Ht & He & _).
  exists c', w', n.
  split; [exact Ha | split; [exact Hn | split; [exact Ht | exact He]]].
Defined.

(** The same exchange, run: the token issued at 08:00:00.000 for an hour
    is cached with 08:59:00.000 as its expiry. *)
Example first_token_expiry :
  authenticate half_hourly
    (new_MicrosoftGraphClient "app-id" "app-secret" "contoso", initial_world)
  = (Returned tt,
     (mkClient "app-id" "app-secret" "contoso" (Some "eyJ0eXAi")
        (t_2027 + 3540000),
      tick (sent (token_request
                    (new_MicrosoftGraphClient "app-id" "app-secret" "contoso"))
              initial_world))).
Proof. reflexivity. Qed.

(** ** Validation *)

Lemma truthy_opt_some o :
  truthy_opt o = true -> exists s, o = Some s /\ truthy s = true.
Proof. destruct o as [s |]; [now exists s | discriminate]. Qed.

Section ValidationFacts.

Variable env : Env.

(** [execute] up to the ordering check, when it fails there. *)
Lemma execute_end_not_after_start input config context w ts te :
  config_complete (client_id config) (client_secret config) (tenant_id config)
    = true ->
  date_parse env (startDateTime input) = Some ts ->
  date_parse env (endDateTime input) = Some te ->
  te <= ts ->
  execute env input config context w
  = (Thrown "Failed to create Teams meeting: End time must be after start time",
     w).
Proof.
  unfold config_complete. intros Hc Hs He Hle.
  apply andb_true_iff in Hc as [Hc Ht]. apply andb_true_iff in Hc as [Hi Hk].
  apply truthy_opt_some in Hi as (cid & Ei & Hi).
  apply truthy_opt_some in Hk as (cs & Ek & Hk).
  apply truthy_opt_some in Ht as (tid & Et & Ht).
  unfold execute, execute_body, try_catch.
  rewrite Ei, Ek, Et, Hi, Hk, Ht, Hs, He. run.
  now apply Z.leb_le in Hle as ->.
Qed.

(** [execute] up to the check against the clock, when it fails there or
    before: a start before the clock value never reaches the provider. *)
Lemma execute_rejects_past input config context w ts :
  date_parse env (startDateTime input) = Some ts ->
  ts < now_at env (clock_reads w) ->
  exists message w',
    execute env input config context w = (Thrown message, w')
    /\ requests w' = requests w
    /\ (clock_reads w' <= S (clock_reads w))%nat.
Proof.
  intros Hs Hlt.
  unfold execute, execute_body, try_catch.
  destruct (client_id config) as [cid |];
    [| eexists; eexists; split; [reflexivity | split; [reflexivity | lia]]].
  destruct (client_secret config) as [cs |];
    [| eexists; eexists; split; [reflexivity | split; [reflexivity | lia]]].
  destruct (tenant_id config) as [tid |];
    [| eexists; eexists; split; [reflexivity | split; [reflexivity | lia]]].
  destruct (negb (truthy cid && truthy cs && truthy tid));
    [eexists; eexists; split; [reflexivity | split; [reflexivity | lia]] |].
  rewrite Hs.
  destruct (date_parse env (endDateTime input)) as [te |];
    [| eexists; eexists; split; [reflexivity | split; [reflexivity | lia]]].
  destruct (te <=? ts);
    [eexists; eexists; split; [reflexivity | split; [reflexivity | lia]] |].
  unfold bind, Date_now. run.
  apply Z.ltb_lt in Hlt as ->.
  eexists; eexists; split; [reflexivity | split; [reflexivity |]].
  cbn [tick clock_reads]. lia.
Qed.

(** The handler up to the ordering check, when it fails there. *)
Lemma handler_end_not_after_start body w d subject s e ts te :
  config_complete (setting env (Server.config body) client_id "CLIENT_ID")
    (setting env (Server.config body) client_secret "CLIENT_SECRET")
    (setting env (Server.config body) tenant_id "TENANT_ID") = true ->
  Server.input_data body = Some d ->
  Server.subject d = Some subject -> truthy subject = true ->
  Server.startDateTime d = Some s -> truthy s = true ->
  Server.endDateTime d = Some e -> truthy e = true ->
  date_parse env s = Some ts ->
  date_parse env e = Some te ->
  te <= ts ->
  post_api_execute env body w
  = (Returned
       (Server.mkReply 400
          (Server.Failure
             ("exec_" ++ string_of_Z (now_at env (clock_reads w)) ++ "_"
              ++ random_at env (random_draws w))
             "VALIDATION_ERROR" "End time must be after start time" None
             (now_at env (S (clock_reads w))))),
     tick (drawn (tick w))).
Proof.
  unfold config_complete, setting. intros Hc Hd Hsub Tsub Hs Ts He Te Ps Pe Hle.
  apply andb_true_iff in Hc as [Hc Ht]. apply andb_true_iff in Hc as [Hi Hk].
  apply truthy_opt_some in Hi as (cid & Ei & Hi).
  apply truthy_opt_some in Hk as (cs & Ek & Hk).
  apply truthy_opt_some in Ht as (tid & Et & Ht).
  unfold post_api_execute, generateId, bind, try_catch, Date_now, Math_random,
    ret, handle_body, setting.
  run. rewrite Ei, Ek, Et, Hi, Hk, Ht, Hd. run.
  rewrite Hsub, Hs, He, Tsub, Ts, Te. run. rewrite Ps, Pe.
  apply Z.leb_le in Hle as ->. reflexivity.
Qed.

(** The handler on a request whose dates are out of order, whatever else
    it holds: a refusal with [VALIDATION_ERROR], for that reason when the
    three required fields are there, and for a missing required field
    otherwise, that check coming first. *)
Lemma handler_refuses_disorder body w d s e ts te :
  config_complete (setting env (Server.config body) client_id "CLIENT_ID")
    (setting env (Server.config body) client_secret "CLIENT_SECRET")
    (setting env (Server.config body) tenant_id "TENANT_ID") = true ->
  Server.input_data body = Some d ->
  Server.startDateTime d = Some s ->
  Server.endDateTime d = Some e ->
  date_parse env s = Some ts ->
  date_parse env e = Some te ->
  te <= ts ->
  post_api_execute env body w
  = (Returned
       (Server.mkReply 400
          (Server.Failure
             ("exec_" ++ string_of_Z (now_at env (clock_reads w)) ++ "_"
              ++ random_at env (random_draws w))
             "VALIDATION_ERROR"
             (if truthy_opt (Server.subject d) && truthy s && truthy e
              then "End time must be after start time"
              else "Missing required input fields")
             None
             (now_at env (S (clock_reads w))))),
     tick (drawn (tick w))).
Proof.
  unfold config_complete. intros Hc Hd Hs He Ps Pe Hle.
  apply andb_true_iff in Hc as [Hc Ht]. apply andb_true_iff in Hc as [Hi Hk].
  apply truthy_opt_some in Hi as (cid & Ei & Hi).
  apply truthy_opt_some in Hk as (cs & Ek & Hk).
  apply truthy_opt_some in Ht as (tid & Et & Ht).
  unfold post_api_execute, generateId, bind, try_catch, Date_now, Math_random,
    ret, handle_body.
  run. rewrite Ei, Ek, Et, Hi, Hk, Ht, Hd. run.
  rewrite Hs, He.
  destruct (Server.subject d) as [subject |]; [| reflexivity].
  cbn [truthy_opt].
  destruct (truthy subject && truthy s && truthy e); [| reflexivity].
  cbn [negb]. rewrite Ps, Pe. apply Z.leb_le in Hle as ->. reflexivity.
Qed.

End ValidationFacts.

(** C3, as stated, fails, on a request whose end equals its start, in
    each of these ways.  The handler checks the required fields before the
    dates: without a subject the refusal carries
    [Missing required input fields], not [End time must be after start time].
    It checks the configuration before both: without credentials the
    refusal is a [CONFIGURATION_ERROR], not a [VALIDATION_ERROR].
    [execute] throws an [Error] that holds a message and nothing else, and
    the message is not the one of the claim: its [catch] block has put
    [Failed to create Teams meeting: ] before it, and without credentials it
    names the configuration, not the dates. *)
Lemma ordering_claim_fails :
  ~ (forall (env : Env) (body : Server.RequestBody) (w : World)
            (d : Server.InputData) (s e : string) (ts te : Z),
        Server.input_data body = Some d ->
        Server.startDateTime d = Some s ->
        Server.endDateTime d = Some e ->
        date_parse env s = Some ts ->
        date_parse env e = Some te ->
        te <= ts ->
        exists reply w',
          post_api_execute env body w = (Returned reply, w')
          /\ Server.error_code_of reply = Some "VALIDATION_ERROR"
          /\ Server.error_message_of reply
             = Some "End time must be after start time"
          /\ requests w' = requests w)
  /\ (let same := Server.mkInputData (Some "Standup")
                    (Some "2030-01-01T09:00:00Z") (Some "2030-01-01T09:00:00Z")
                    None None None None None in
      iso_utc "2030-01-01T09:00:00Z" = Some 1893488400000
      /\ exists reply w',
           post_api_execute half_hourly (Server.mkBody (Some same) None)
             initial_world = (Returned reply, w')
           /\ Server.error_code_of reply = Some "CONFIGURATION_ERROR"
           /\ Server.error_code_of reply <> Some "VALIDATION_ERROR"
           /\ Server.error_message_of reply
              <> Some "End time must be after start time")
  /\ (let same := mkInput "Standup" "2030-01-01T09:00:00Z"
                    "2030-01-01T09:00:00Z" None None None None None in
      execute half_hourly same credentials context_1 initial_world
      = (Thrown
           "Failed to create Teams meeting: End time must be after start time",
         initial_world)
      /\ fst (execute half_hourly same credentials context_1 initial_world)
         <> Thrown "End time must be after start time"
      /\ execute half_hourly same (mkConfig None None None None) context_1
           initial_world
         = (Thrown
              "Failed to create Teams meeting: Missing required Microsoft Graph API configuration: client_id, client_secret, and tenant_id are required",
            initial_world)).
Proof.
  split; [| split].
  - intros claim.
    destruct (claim half_hourly
                (body_of None "2030-01-01T09:00:00Z" "2030-01-01T09:00:00Z")
                initial_world
                (Server.mkInputData None (Some "2030-01-01T09:00:00Z")
                   (Some "2030-01-01T09:00:00Z") None None None None None)
                "2030-01-01T09:00:00Z" "2030-01-01T09:00:00Z"
                1893488400000 1893488400000
                eq_refl eq_refl eq_refl eq_refl eq_refl)
      as (reply & w' & Hrun & _ & Hmessage & _).
    + lia.
    + vm_compute in Hrun. injection Hrun as <- _.
      vm_compute in Hmessage. discriminate.
  - cbv zeta. split; [reflexivity |].
    eexists. eexists. split; [vm_compute; reflexivity |].
    split; [reflexivity | split; discriminate].
  - cbv zeta. split; [reflexivity | split; [| reflexivity]].
    vm_compute. discriminate.
Qed.

(** C3, amended.  With the provider configuration complete, a request
    whose end parses to an instant not after the one its start parses to is
    refused before anything is sent, whatever its other fields hold:
    [execute] throws [End time must be after start time] (under the prefix
    of its [catch] block) and leaves the world untouched; the handler
    replies 400 [VALIDATION_ERROR] and sends nothing, with that message
    when subject, start and end are all present and non-empty, and with
    [Missing required input fields] when one of them is absent or empty. *)
Theorem end_not_after_start_rejected (env : Env) :
  (forall input config context w ts te,
      config_complete (client_id config) (client_secret config)
        (tenant_id config) = true ->
      date_parse env (startDateTime input) = Some ts ->
      date_parse env (endDateTime input) = Some te ->
      te <= ts ->
      execute env input config context w
      = (Thrown
           "Failed to create Teams meeting: End time must be after start time",
         w))
  /\ (forall body w d subject s e ts te,
         config_complete
           (setting env (Server.config body) client_id "CLIENT_ID")
           (setting env (Server.config body) client_secret "CLIENT_SECRET")
           (setting env (Server.config body) tenant_id "TENANT_ID") = true ->
         Server.input_data body = Some d ->
         Server.subject d = Some subject -> truthy subject = true ->
         Server.startDateTime d = Some s -> truthy s = true ->
         Server.endDateTime d = Some e -> truthy e = true ->
         date_parse env s = Some ts ->
         date_parse env e = Some te ->
         te <= ts ->
         exists reply w',
           post_api_execute env body w = (Returned reply, w')
           /\ Server.code reply = 400
           /\ Server.error_code_of reply = Some "VALIDATION_ERROR"
           /\ Server.error_message_of reply
              = Some "End time must be after start time"
           /\ requests w' = requests w)
  /\ (forall body w d s e ts te,
         config_complete
           (setting env (Server.config body) client_id "CLIENT_ID")
           (setting env (Server.config body) client_secret "CLIENT_SECRET")
           (setting env (Server.config body) tenant_id "TENANT_ID") = true ->
         Server.input_data body = Some d ->
         Server.startDateTime d = Some s ->
         Server.endDateTime d = Some e ->
         date_parse env s = Some ts ->
         date_parse env e = Some te ->
         te <= ts ->
         exists reply w',
           post_api_execute env body w = (Returned reply, w')
           /\ Server.code reply = 400
           /\ Server.error_code_of reply = Some "VALIDATION_ERROR"
           /\ Server.error_message_of reply
              = Some (if truthy_opt (Server.subject d) && truthy s && truthy e
                      then "End time must be after start time"
                      else "Missing required input fields")
           /\ requests w' = requests w).
Proof.
  split; [| split].
  - intros. now apply execute_end_not_after_start with (ts := ts) (te := te).
  - intros body w d subject s e ts te Hc Hd Hsub Tsub Hs Ts He Te Ps Pe Hle.
    eexists. eexists. split.
    + now apply handler_end_not_after_start
        with (d := d) (subject := subject) (s := s) (e := e) (ts := ts) (te := te).
    + repeat split.
  - intros body w d s e ts te Hc Hd Hs He Ps Pe Hle.
    eexists. eexists. split.
    + exact (handler_refuses_disorder env body w d s e ts te
               Hc Hd Hs He Ps Pe Hle).
    + repeat split.
Qed.

Lemma end_not_after_start_rejected_witness :
  execute half_hourly
    (mkInput "Standup" "2030-01-01T09:00:00Z" "2030-01-01T09:00:00Z"
       (Some ["ana@contoso.com"]) (Some "Daily") (Some false) None (Some true))
    credentials context_1 initial_world
  = (Thrown "Failed to create Teams meeting: End time must be after start time",
     initial_world)
  /\ (exists reply w',
        post_api_execute half_hourly
          (body_of (Some "Standup") "2030-01-01T09:00:00Z" "2030-01-01T09:00:00Z")
          initial_world = (Returned reply, w')
        /\ Server.code reply = 400
        /\ Server.error_code_of reply = Some "VALIDATION_ERROR"
        /\ Server.error_message_of reply
           = Some "End time must be after start time"
        /\ requests w' = requests initial_world)
  /\ (exists reply w',
        post_api_execute half_hourly
          (body_of (Some "") "2030-01-01T09:30:00Z" "2030-01-01T09:00:00Z")
          initial_world = (Returned reply, w')
        /\ Server.code reply = 400
        /\ Server.error_code_of reply = Some "VALIDATION_ERROR"
        /\ Server.error_message_of reply = Some "Missing required input fields"
        /\ requests w' = requests initial_world).
Proof.
  split; [| split].
  - apply (proj1 (end_not_after_start_rejected half_hourly))
      with (ts := 1893488400000) (te := 1893488400000);
      [reflexivity | reflexivity | reflexivity | lia].
  - apply (proj1 (proj2 (end_not_after_start_rejected half_hourly)))
      with (d := Server.mkInputData (Some "Standup")
                   (Some "2030-01-01T09:00:00Z") (Some "2030-01-01T09:00:00Z")
                   None None None None None)
           (subject := "Standup") (s := "2030-01-01T09:00:00Z")
           (e := "2030-01-01T09:00:00Z")
           (ts := 1893488400000) (te := 1893488400000);
      try reflexivity; lia.
  - apply (proj2 (proj2 (end_not_after_start_rejected half_hourly))
             (body_of (Some "") "2030-01-01T09:30:00Z" "2030-01-01T09:00:00Z")
             initial_world
             (Server.mkInputData (Some "")
                (Some "2030-01-01T09:30:00Z") (Some "2030-01-01T09:00:00Z")
                None None None None None)
             "2030-01-01T09:30:00Z" "2030-01-01T09:00:00Z"
             1893490200000 1893488400000);
      try reflexivity; lia.
Defined.

(** C4.  The handler has no check of the start against the clock.  With
    the clock at 2027-01-15, a meeting from 09:00 to 09:30 on 2020-01-01
    is refused by [execute] before anything is sent, as the claim says;
    the handler exchanges the credentials, creates the meeting and replies
    200. *)
Theorem handler_schedules_meeting_in_the_past :
  let past := body_of (Some "Standup") "2020-01-01T09:00:00Z"
                "2020-01-01T09:30:00Z" in
  let input := mkInput "Standup" "2020-01-01T09:00:00Z" "2020-01-01T09:30:00Z"
                 None None None None None in
  iso_utc "2020-01-01T09:00:00Z" = Some 1577869200000
  /\ 1577869200000 < now_at half_hourly 0
  /\ execute half_hourly input credentials context_1 initial_world
     = (Thrown
          "Failed to create Teams meeting: Cannot schedule meetings in the past",
        tick initial_world)
  /\ exists reply w',
       post_api_execute half_hourly past initial_world = (Returned reply, w')
       /\ Server.code reply = 200
       /\ Server.error_code_of reply = None
       /\ credential_exchanges w' = 1%nat
       /\ meeting_creations w' = 1%nat.
Proof.
  cbv zeta. split; [reflexivity | split; [reflexivity | split; [reflexivity |]]].
  eexists. eexists. split; [vm_compute; reflexivity |].
  repeat split.
Qed.

(** ** The provider payload *)

Lemma lookup_absent k props : has_key k props = false -> lookup k props = VUndefined.
Proof.
  induction props as [| [k' v] props IH]; [reflexivity |].
  cbn [has_key existsb fst lookup]. intros H.
  apply orb_false_iff in H as [-> H]. exact (IH H).
Qed.

(** The keys of the payload, in the order they are written. *)
Lemma payload_keys d :
  map fst (meetingPayload d)
  = (["startDateTime"; "endDateTime"; "subject"]
     ++ (if truthy_opt (description d) then ["externalId"] else [])
     ++ ["allowAttendeeToEnableCamera"; "allowAttendeeToEnableMic";
         "allowRecording"; "allowMeetingChat"; "allowedPresenters"])%list.
Proof.
  unfold meetingPayload.
  destruct (description d) as [t |]; [destruct t |]; reflexivity.
Qed.

(** C10. The body sent to the meeting-creation endpoint has, as its keys,
    [startDateTime], [endDateTime], [subject], then [externalId] when there
    is a description, then the five meeting options; [attendees] is not one
    of them, and changing the list of attendees changes neither the
    request [createMeeting] sends nor anything else of its run.  Through
    [execute] the attendees reach the result's [attendees_count] and
    nothing else: the world and the error are the same, and a result
    differs by that count only.  The handler's run does not depend on them
    at all. *)
Theorem attendees_never_transmitted
    (env : Env) (d : MeetingSchedulerInput) (a : option (list string)) :
  map fst (meetingPayload d)
  = (["startDateTime"; "endDateTime"; "subject"]
     ++ (if truthy_opt (description d) then ["externalId"] else [])
     ++ ["allowAttendeeToEnableCamera"; "allowAttendeeToEnableMic";
         "allowRecording"; "allowMeetingChat"; "allowedPresenters"])%list
  /\ has_key "attendees" (meetingPayload d) = false
  /\ meetingPayload (with_attendees a d) = meetingPayload d
  /\ (forall c u,
        meeting_request c (with_attendees a d) u = meeting_request c d u)
  /\ (forall u s,
        createMeeting env (with_attendees a d) u s = createMeeting env d u s)
  /\ (forall config context w,
        execute env (with_attendees a d) config context w
        = match execute env d config context w with
          | (Returned r, w') => (Returned (with_count (count_attendees a) r), w')
          | (Thrown message, w') => (Thrown message, w')
          end)
  /\ (forall data config w,
        post_api_execute env
          (Server.mkBody (Some (with_attendees_data a data)) config) w
        = post_api_execute env (Server.mkBody (Some data) config) w).
Proof.
  split; [apply payload_keys |].
  split.
  { unfold has_key. rewrite <- (map_id (meetingPayload d)).
    unfold meetingPayload.
    destruct (description d) as [t |]; [destruct t |]; reflexivity. }
  split; [reflexivity |]. split; [reflexivity |]. split; [reflexivity |].
  split; [| reflexivity].
  intros config context w.
  unfold execute, execute_body, try_catch.
  destruct (client_id config) as [cid |]; [| reflexivity].
  destruct (client_secret config) as [cs |]; [| reflexivity].
  destruct (tenant_id config) as [tid |]; [| reflexivity].
  destruct (negb (truthy cid && truthy cs && truthy tid)); [reflexivity |].
  cbn [startDateTime endDateTime with_attendees].
  destruct (date_parse env (startDateTime d)) as [ts |]; [| reflexivity].
  destruct (date_parse env (endDateTime d)) as [te |]; [| reflexivity].
  destruct (te <=? ts); [reflexivity |].
  unfold bind, Date_now. run.
  destruct (now_at env (clock_reads w) >? ts) eqn:E; rewrite Z.gtb_ltb in E;
    rewrite E; [reflexivity |].
  change (meetingData_of (with_attendees a d))
    with (with_attendees a (meetingData_of d)).
  change (createMeeting env (with_attendees a (meetingData_of d)) (user_id config))
    with (createMeeting env (meetingData_of d) (user_id config)).
  destruct (on_object (new_MicrosoftGraphClient cid cs tid)
              (createMeeting env (meetingData_of d) (user_id config)) (tick w))
    as [[meetingResult | m] w']; [| reflexivity].
  destruct meetingResult; reflexivity.
Qed.

(** ** Response normalisation *)

(** What the normalisation gives on anything but [null] and [undefined]. *)
Lemma meetingInfo_of_run {S} (meetingResult : value) (s : S) :
  meetingResult <> VNull -> meetingResult <> VUndefined ->
  meetingInfo_of meetingResult s
  = (Returned
       (Tool.mkMeetingInfo
          (get_opt meetingResult "id") (get_opt meetingResult "joinUrl")
          (get_opt (get_opt meetingResult "audioConferencing") "conferenceId")
          (get_opt (get_opt meetingResult "audioConferencing") "dialinUrl")
          (get_opt meetingResult "subject")
          (get_opt meetingResult "startDateTime")
          (get_opt meetingResult "endDateTime")
          (get_opt meetingResult "creationDateTime")
          (get_opt (get_opt (get_opt meetingResult "organizer") "user")
             "displayName")
          (Tool.mkSettings
             (get_opt meetingResult "allowAttendeeToEnableCamera")
             (get_opt meetingResult "allowAttendeeToEnableMic")
             (get_opt meetingResult "allowRecording")
             (strict_eq_str (get_opt meetingResult "allowMeetingChat")
                "enabled"))),
     s).
Proof. intros Hn Hu. destruct meetingResult; try reflexivity; contradiction. Qed.

(** The normalisation touches nothing. *)
Lemma meetingInfo_of_pure {S} (meetingResult : value) (s : S) :
  snd (meetingInfo_of meetingResult s) = s.
Proof. destruct meetingResult; reflexivity. Qed.

(** C8. The normalisation of a provider response (any JSON value but
    [null]) never throws.  When the response object has no
    [audioConferencing], or has it as [null], [conference_id] and
    [dial_in_url] are [undefined], as each is when [audioConferencing] is
    there without the key it reads; when the response has no [organizer],
    or the organizer has no [user], or the user has no [displayName],
    [organizer] is [undefined]. *)
Theorem normalization_tolerates_absence
    (S : Type) (s : S) (meetingResult : value) :
  meetingResult <> VNull -> meetingResult <> VUndefined ->
  exists info,
    meetingInfo_of meetingResult s = (Returned info, s)
    /\ (forall props,
          meetingResult = VObj props ->
          has_key "audioConferencing" props = false
          \/ lookup "audioConferencing" props = VNull ->
          Tool.conference_id info = VUndefined
          /\ Tool.dial_in_url info = VUndefined)
    /\ (forall props audio,
          meetingResult = VObj props ->
          lookup "audioConferencing" props = VObj audio ->
          (has_key "conferenceId" audio = false ->
           Tool.conference_id info = VUndefined)
          /\ (has_key "dialinUrl" audio = false ->
              Tool.dial_in_url info = VUndefined))
    /\ (forall props,
          meetingResult = VObj props ->
          has_key "organizer" props = false
          \/ lookup "organizer" props = VNull ->
          Tool.organizer info = VUndefined)
    /\ (forall props organizer,
          meetingResult = VObj props ->
          lookup "organizer" props = VObj organizer ->
          has_key "user" organizer = false
          \/ lookup "user" organizer = VNull ->
          Tool.organizer info = VUndefined)
    /\ (forall props organizer user,
          meetingResult = VObj props ->
          lookup "organizer" props = VObj organizer ->
          lookup "user" organizer = VObj user ->
          has_key "displayName" user = false ->
          Tool.organizer info = VUndefined).
Proof.
  intros Hn Hu. eexists. split; [now apply meetingInfo_of_run |].
  cbn [Tool.conference_id Tool.dial_in_url Tool.organizer].
  split; [| split; [| split; [| split]]].
  - intros props -> [H | H]; cbn [get_opt];
      [rewrite (lookup_absent _ _ H) | rewrite H]; now split.
  - intros props audio -> Ha. cbn [get_opt]. rewrite Ha. cbn [get_opt].
    split; intros H; exact (lookup_absent _ _ H).
  - intros props -> [H | H]; cbn [get_opt];
      [rewrite (lookup_absent _ _ H) | rewrite H]; reflexivity.
  - intros props organizer -> Ho [H | H]; cbn [get_opt]; rewrite Ho;
      cbn [get_opt]; [rewrite (lookup_absent _ _ H) | rewrite H]; reflexivity.
  - intros props organizer user -> Ho Hv H. cbn [get_opt]. rewrite Ho.
    cbn [get_opt]. rewrite Hv. cbn [get_opt]. exact (lookup_absent _ _ H).
Qed.

Lemma normalization_tolerates_absence_witness :
  exists info,
    meetingInfo_of created_meeting initial_world = (Returned info, initial_world)
    /\ Tool.conference_id info = VUndefined
    /\ Tool.dial_in_url info = VUndefined
    /\ Tool.organizer info = VUndefined.
Proof.
  destruct (normalization_tolerates_absence World initial_world created_meeting)
    as (info & Hrun & Haudio & _ & Horganizer & _);
    [discriminate | discriminate |].
  exists info. split; [exact Hrun |].
  destruct (Haudio _ eq_refl (or_introl eq_refl)) as [Hc Hd].
  split; [exact Hc | split; [exact Hd |]].
  exact (Horganizer _ eq_refl (or_introl eq_refl)).
Defined.

(** On [null] the first property read throws, and [execute] reports it. *)
Example normalization_of_null :
  meetingInfo_of VNull initial_world
  = (Thrown "Cannot read properties of null (reading 'id')", initial_world).
Proof. reflexivity. Qed.

(** ** One invocation *)

Section InvocationFacts.

Variable env : Env.

(** [createMeeting] on a new client that returns has exchanged the
    credentials once and has sent the token so obtained to the Graph API. *)
Lemma createMeeting_new_returns cid cs tid d u w meetingResult c' w' :
  let c0 := new_MicrosoftGraphClient cid cs tid in
  createMeeting env d u (c0, w) = (Returned meetingResult, (c', w')) ->
  exists tr td,
    token_endpoint env (requests w) (token_request c0) = Responded tr
    /\ ok tr = true
    /\ json tr = Data td
    /\ c' = renewed c0 td (now_at env (clock_reads w))
    /\ w' = sent (meeting_request c' d u) (tick (sent (token_request c0) w)).
Proof.
  intros c0. rewrite createMeeting_run.
  rewrite (authenticate_miss env c0 w eq_refl). cbv zeta.
  change (tested c0 w) with w.
  destruct (token_endpoint env (requests w) (token_request c0)) as [m | tr];
    [discriminate |].
  destruct (ok tr) eqn:Hok; [| discriminate].
  destruct (json tr) as [m | td] eqn:Hd; [discriminate |].
  intros H. exists tr, td.
  split; [reflexivity | split; [exact Hok | split; [exact Hd |]]].
  destruct (graph_endpoint env _ _) as [m | gr]; [discriminate |].
  destruct (ok gr); [| discriminate].
  destruct (json gr); [discriminate |].
  injection H as _ <- <-. now split.
Qed.

(** A successful [execute]: its result and the two requests it sent. *)
Lemma execute_returns input config context w r w' :
  execute env input config context w = (Returned r, w') ->
  exists cid cs tid tr td info,
    let c0 := new_MicrosoftGraphClient cid cs tid in
    let c1 := renewed c0 td (now_at env (S (clock_reads w))) in
    client_id config = Some cid
    /\ client_secret config = Some cs
    /\ tenant_id config = Some tid
    /\ token_endpoint env (requests w) (token_request c0) = Responded tr
    /\ json tr = Data td
    /\ r = success input context info
    /\ requests w'
       = (requests w
          ++ [token_request c0;
              meeting_request c1 (meetingData_of input) (user_id config)])%list.
Proof.
  unfold execute, execute_body, try_catch. intros H.
  destruct (client_id config) as [cid |]; [| discriminate].
  destruct (client_secret config) as [cs |]; [| discriminate].
  destruct (tenant_id config) as [tid |]; [| discriminate].
  destruct (negb _); [discriminate |].
  destruct (date_parse env (startDateTime input)) as [ts |]; [| discriminate].
  destruct (date_parse env (endDateTime input)) as [te |]; [| discriminate].
  destruct (te <=? ts); [discriminate |].
  unfold bind, Date_now, on_object in H. run_in H.
  destruct (ts <? now_at env (clock_reads w)); [discriminate |].
  destruct (createMeeting env (meetingData_of input) (user_id config)
              (new_MicrosoftGraphClient cid cs tid, tick w))
    as [[meetingResult | m] [c' w1]] eqn:E; [| discriminate].
  apply createMeeting_new_returns in E as (tr & td & Ht & _ & Hd & -> & ->).
  destruct (meetingInfo_of meetingResult
              (sent (meeting_request
                       (renewed (new_MicrosoftGraphClient cid cs tid) td
                          (now_at env (clock_reads (tick w))))
                       (meetingData_of input) (user_id config))
                 (tick (sent (token_request
                                (new_MicrosoftGraphClient cid cs tid))
                          (tick w)))))
    as [[info | m] w2] eqn:E; [| discriminate].
  assert (w2 = sent (meeting_request
                       (renewed (new_MicrosoftGraphClient cid cs tid) td
                          (now_at env (clock_reads (tick w))))
                       (meetingData_of input) (user_id config))
                 (tick (sent (token_request
                                (new_MicrosoftGraphClient cid cs tid))
                          (tick w)))) as ->.
  { apply (f_equal snd) in E. now rewrite meetingInfo_of_pure in E. }
  unfold ret in H. run_in H. injection H as <- <-.
  exists cid, cs, tid, tr, td, info. cbv zeta.
  repeat (split; [first [reflexivity | assumption] |]).
  cbn [sent tick requests]. now rewrite <- app_assoc.
Qed.

End InvocationFacts.

Section HandlerFacts.

Variable env : Env.

(** A reply of the handler with status 200: the two requests it sent. *)
Lemma handler_replies_200 body w reply w' :
  post_api_execute env body w = (Returned reply, w') ->
  Server.code reply = 200 ->
  exists cid cs tid tr td d subject s e,
    let c0 := new_MicrosoftGraphClient cid cs tid in
    let c1 := renewed c0 td (now_at env (S (clock_reads w))) in
    setting env (Server.config body) client_id "CLIENT_ID" = Some cid
    /\ setting env (Server.config body) client_secret "CLIENT_SECRET" = Some cs
    /\ setting env (Server.config body) tenant_id "TENANT_ID" = Some tid
    /\ Server.input_data body = Some d
    /\ token_endpoint env (requests w) (token_request c0) = Responded tr
    /\ json tr = Data td
    /\ requests w'
       = (requests w
          ++ [token_request c0;
              meeting_request c1 (meetingData_of_input_data d subject s e)
                (setting env (Server.config body) user_id "USER_ID")])%list.
Proof.
  unfold post_api_execute, generateId, bind, try_catch, Date_now, Math_random,
    ret, handle_body, reply_error, setting.
  run. intros H Hcode.
  destruct (or_else (config_key (Server.config body) client_id) _) as [cid |];
    [| injection H as <- _; discriminate Hcode].
  destruct (or_else (config_key (Server.config body) client_secret) _) as [cs |];
    [| injection H as <- _; discriminate Hcode].
  destruct (or_else (config_key (Server.config body) tenant_id) _) as [tid |];
    [| injection H as <- _; discriminate Hcode].
  destruct (negb _); [injection H as <- _; discriminate Hcode |].
  destruct (Server.input_data body) as [d |];
    [| injection H as <- _; discriminate Hcode].
  run_in H.
  destruct (Server.subject d) as [subject |];
    [| injection H as <- _; discriminate Hcode].
  destruct (Server.startDateTime d) as [s |];
    [| injection H as <- _; discriminate Hcode].
  destruct (Server.endDateTime d) as [e |];
    [| injection H as <- _; discriminate Hcode].
  destruct (negb _); [injection H as <- _; discriminate Hcode |].
  destruct (date_parse env s) as [ts |];
    [| injection H as <- _; discriminate Hcode].
  destruct (date_parse env e) as [te |];
    [| injection H as <- _; discriminate Hcode].
  destruct (te <=? ts); [injection H as <- _; discriminate Hcode |].
  unfold bind, on_object, of_outcome in H.
  destruct (createMeeting env (meetingData_of_input_data d subject s e) _
              (new_MicrosoftGraphClient cid cs tid, drawn (tick w)))
    as [[meetingResult | m] [c' w1]] eqn:E;
    [| injection H as <- _; discriminate Hcode].
  apply createMeeting_new_returns in E as (tr & td & Ht & _ & Hd & -> & ->).
  exists cid, cs, tid, tr, td, d, subject, s, e. cbv zeta.
  repeat (split; [first [reflexivity | assumption] |]).
  destruct meetingResult; run_in H;
    injection H as H1 H2; subst; try discriminate Hcode;
    cbn [sent tick drawn requests]; now rewrite <- app_assoc.
Qed.

End HandlerFacts.

Lemma own_exchange_counts env w w' :
  own_exchange env w w' ->
  credential_exchanges w' = S (credential_exchanges w)
  /\ meeting_creations w' = S (meeting_creations w).
Proof.
  intros (c0 & tr & td & creation & _ & _ & _ & _ & Hreq & Hm & _).
  unfold credential_exchanges, meeting_creations. rewrite Hreq.
  rewrite !filter_app, !length_app. cbn [filter].
  rewrite token_request_is_exchange, token_request_is_no_creation, Hm.
  assert (Hn : is_token_request creation = false).
  { unfold is_token_request. unfold is_meeting_request in Hm.
    destruct (String.prefix "https://login.microsoftonline.com/" (url creation))
      eqn:Ht; [| reflexivity].
    destruct (prefix_comparable _ _ _ Hm Ht); discriminate. }
  rewrite Hn. cbn [length]. lia.
Qed.

(** C7. In the result of every successful execution, [attendees_count] is
    the length of the request's list of attendees, 0 when the request has
    none (so it is the same whatever the provider answered), and the last
    instruction is the [Recording is disabled] wording exactly when the
    request's recording flag, defaulted to [false], is [false], the
    [Recording is enabled] wording otherwise. *)
Theorem attendees_count_and_recording_instruction
    (env : Env) (input : MeetingSchedulerInput)
    (config : MeetingSchedulerConfig) (context : Tool.ExecutionContext)
    (w w' : World) (r : Tool.ToolResult) :
  execute env input config context w = (Returned r, w') ->
  Tool.attendees_count (Tool.data r)
  = match attendees input with Some l => length l | None => 0%nat end
  /\ last (Tool.instructions (Tool.data r)) EmptyString
     = (if match allowRecording input with Some b => b | None => false end
        then "Recording is enabled for this meeting"
        else "Recording is disabled for this meeting")
  /\ (forall env2 config2 context2 w2 r2 w2',
        execute env2 input config2 context2 w2 = (Returned r2, w2') ->
        Tool.attendees_count (Tool.data r2) = Tool.attendees_count (Tool.data r)).
Proof.
  intros H.
  destruct (execute_returns env input config context w r w' H)
    as (cid & cs & tid & tr & td & info & _ & _ & _ & _ & _ & -> & _).
  split; [reflexivity | split; [reflexivity |]].
  intros env2 config2 context2 w2 r2 w2' H2.
  destruct (execute_returns env2 input config2 context2 w2 r2 w2' H2)
    as (cid2 & cs2 & tid2 & tr2 & td2 & info2 & _ & _ & _ & _ & _ & -> & _).
  reflexivity.
Qed.

Lemma attendees_count_and_recording_instruction_witness :
  exists r w',
    execute half_hourly standup credentials context_1 initial_world
    = (Returned r, w')
    /\ Tool.attendees_count (Tool.data r) = 0%nat
    /\ last (Tool.instructions (Tool.data r)) EmptyString
       = "Recording is disabled for this meeting".
Proof.
  destruct (execute half_hourly standup credentials context_1 initial_world)
    as [[r | m] w'] eqn:E.
  - exists r, w'. split; [reflexivity |].
    destruct (attendees_count_and_recording_instruction half_hourly standup
                credentials context_1 initial_world w' r E) as (Hc & Hi & _).
    split; [exact Hc | exact Hi].
  - vm_compute in E. discriminate E.
Defined.

(** C9. Every [execute] that returns, and every reply 200 of the handler,
    has sent exactly two requests of its own: a credential exchange from a
    client constructed with an empty token cache, then the meeting
    creation with the token that exchange returned in its [Authorization]
    header.  No token survives an invocation: two successful executions
    in a row perform two credential exchanges. *)
Theorem fresh_client_every_invocation (env : Env) :
  (forall input config context w r w',
      execute env input config context w = (Returned r, w') ->
      own_exchange env w w'
      /\ credential_exchanges w' = S (credential_exchanges w)
      /\ meeting_creations w' = S (meeting_creations w))
  /\ (forall body w reply w',
         post_api_execute env body w = (Returned reply, w') ->
         Server.code reply = 200 ->
         own_exchange env w w'
         /\ credential_exchanges w' = S (credential_exchanges w)
         /\ meeting_creations w' = S (meeting_creations w))
  /\ (forall input1 input2 config context1 context2 w0 w1 w2 r1 r2,
         execute env input1 config context1 w0 = (Returned r1, w1) ->
         execute env input2 config context2 w1 = (Returned r2, w2) ->
         credential_exchanges w2 = S (S (credential_exchanges w0))).
Proof.
  assert (tool : forall input config context w r w',
             execute env input config context w = (Returned r, w') ->
             own_exchange env w w').
  { intros input config context w r w' H.
    destruct (execute_returns env input config context w r w' H)
      as (cid & cs & tid & tr & td & info & _ & _ & _ & Ht & Hd & _ & Hreq).
    cbv zeta in Ht, Hreq.
    exists (new_MicrosoftGraphClient cid cs tid), tr, td.
    eexists. repeat (split; [first [reflexivity | eassumption] |]).
    split; [apply meeting_request_is_creation | now left]. }
  split; [| split].
  - intros input config context w r w' H.
    pose proof (tool _ _ _ _ _ _ H) as Hown.
    split; [exact Hown | exact (own_exchange_counts env w w' Hown)].
  - intros body w reply w' H Hcode.
    assert (Hown : own_exchange env w w').
    { destruct (handler_replies_200 env body w reply w' H Hcode)
        as (cid & cs & tid & tr & td & d & subject & s & e
            & _ & _ & _ & _ & Ht & Hd & Hreq).
      cbv zeta in Ht, Hreq.
      exists (new_MicrosoftGraphClient cid cs tid), tr, td.
      eexists. repeat (split; [first [reflexivity | eassumption] |]).
      split; [apply meeting_request_is_creation | now left]. }
    split; [exact Hown | exact (own_exchange_counts env w w' Hown)].
  - intros input1 input2 config context1 context2 w0 w1 w2 r1 r2 H1 H2.
    destruct (own_exchange_counts env w0 w1 (tool _ _ _ _ _ _ H1)) as [X1 _].
    destruct (own_exchange_counts env w1 w2 (tool _ _ _ _ _ _ H2)) as [X2 _].
    now rewrite X2, X1.
Qed.

Lemma fresh_client_every_invocation_witness :
  (exists r w',
      execute half_hourly standup credentials context_1 initial_world
      = (Returned r, w')
      /\ credential_exchanges w' = 1%nat)
  /\ (exists reply w',
         post_api_execute half_hourly
           (body_of (Some "Standup") "2030-01-01T09:00:00Z"
              "2030-01-01T09:30:00Z") initial_world
         = (Returned reply, w')
         /\ Server.code reply = 200
         /\ credential_exchanges w' = 1%nat).
Proof.
  split.
  - destruct (execute half_hourly standup credentials context_1 initial_world)
      as [[r | m] w'] eqn:E.
    + exists r, w'. split; [reflexivity |].
      exact (proj1 (proj2 (proj1 (fresh_client_every_invocation half_hourly)
                             standup credentials context_1 initial_world r w' E))).
    + vm_compute in E. discriminate E.
  - destruct (post_api_execute half_hourly
                (body_of (Some "Standup") "2030-01-01T09:00:00Z"
                   "2030-01-01T09:30:00Z") initial_world)
      as [[reply | m] w'] eqn:E.
    + assert (Hcode : Server.code reply = 200)
        by (vm_compute in E; now injection E as <- _).
      exists reply, w'. split; [reflexivity | split; [exact Hcode |]].
      exact (proj1 (proj2 (proj1 (proj2 (fresh_client_every_invocation
                                           half_hourly))
                             _ initial_world reply w' E Hcode))).
    + vm_compute in E. discriminate E.
Defined.

(** ** Scenarios *)

(** The stand-up of 2030-01-01, scheduled with valid credentials. *)
Example standup_is_scheduled :
  exists r w,
    execute half_hourly standup credentials context_1 initial_world
    = (Returned r, w)
    /\ Tool.status r = "success"
    /\ Tool.join_url (Tool.meeting (Tool.data r))
       = VStr "https://teams.microsoft.com/l/meetup-join/19"
    /\ Tool.attendees_count (Tool.data r) = 0%nat
    /\ Tool.summary (Tool.data r)
       = "Successfully created Teams meeting " ++ dquote ++ "Standup" ++ dquote
         ++ " for 2030-01-01T09:00:00Z"
    /\ map url (requests w)
       = ["https://login.microsoftonline.com/contoso/oauth2/v2.0/token";
          "https://graph.microsoft.com/v1.0/me/onlineMeetings"].
Proof. eexists. eexists. split; [reflexivity | repeat split]. Qed.

(** The same request with refused credentials: [execute] adds the hint on
    credentials to the message; the handler reports the message under
    [INTERNAL_ERROR], with status 500.  Neither reaches the Graph API. *)
Example refused_credentials :
  execute unauthorized standup credentials context_1 initial_world
  = (Thrown "Failed to create Teams meeting: Failed to authenticate with Microsoft Graph: Authentication failed: 401 - {error:invalid_client} - Please verify your Microsoft Graph API credentials",
     sent (token_request
             (new_MicrosoftGraphClient "app-id" "app-secret" "contoso"))
       (tick initial_world))
  /\ exists reply w,
       post_api_execute unauthorized
         (body_of (Some "Standup") "2030-01-01T09:00:00Z" "2030-01-01T09:30:00Z")
         initial_world = (Returned reply, w)
       /\ Server.code reply = 500
       /\ Server.error_code_of reply = Some "INTERNAL_ERROR"
       /\ Server.error_message_of reply
          = Some "Failed to authenticate with Microsoft Graph: Authentication failed: 401 - {error:invalid_client}"
       /\ meeting_creations w = 0%nat.
Proof.
  split; [reflexivity |].
  eexists. eexists. split; [reflexivity | repeat split].
Qed.

(** An explicit [false] for the camera reaches the provider as [false]. *)
Example camera_off_is_sent :
  lookup "allowAttendeeToEnableCamera"
    (meetingPayload
       (meetingData_of
          (mkInput "Standup" "2030-01-01T09:00:00Z" "2030-01-01T09:30:00Z"
             (Some ["ana@contoso.com"; "li@contoso.com"]) None (Some false)
             None None)))
  = VBool false.
Proof. reflexivity. Qed.

(** * Further properties *)

(** ** Every outcome of a call of the client *)

(** A cache hit is the one case where [authenticate] sends nothing; it
    never throws then. *)
Lemma authenticate_thrown_is_miss env c w m c' w' :
  authenticate env (c, w) = (Thrown m, (c', w')) -> cache_hit env c w = false.
Proof.
  destruct (cache_hit env c w) eqn:E; [| reflexivity].
  now rewrite (authenticate_hit env c w E).
Qed.

(** What a call of [createMeeting] sends, and the client it leaves: on a
    cache hit the meeting request alone; on a miss the token request and
    then, only when the exchange has succeeded, the meeting request. *)
Lemma createMeeting_requests_sent
    (env : Env) (d : MeetingSchedulerInput) (u : option string)
    (c : MicrosoftGraphClient) (w : World) :
  let o := fst (createMeeting env d u (c, w)) in
  let c' := fst (snd (createMeeting env d u (c, w))) in
  let w' := snd (snd (createMeeting env d u (c, w))) in
  if cache_hit env c w
  then c' = c /\ requests w' = (requests w ++ [meeting_request c d u])%list
  else
    (c' = c
     /\ requests w' = (requests w ++ [token_request c])%list
     /\ exists message,
          o = Thrown ("Failed to authenticate with Microsoft Graph: " ++ message))
    \/ (exists td now,
          c' = renewed c td now
          /\ requests w'
             = (requests w ++ [token_request c; meeting_request c' d u])%list).
Proof.
  cbv zeta. rewrite createMeeting_run.
  destruct (cache_hit env c w) eqn:E.
  - rewrite (authenticate_hit env c w E). cbv zeta.
    destruct (graph_endpoint env _ _) as [m | r];
      [| destruct (ok r); [destruct (json r) |]]; now split.
  - rewrite (authenticate_miss env c w E). cbv zeta.
    destruct (token_endpoint env (requests w) (token_request c)) as [m | r].
    + left. cbn [fst snd sent requests]. rewrite requests_tested.
      split; [reflexivity | split; [reflexivity | now exists m]].
    + destruct (ok r).
      * destruct (json r) as [m | td].
        -- left. cbn [fst snd sent requests]. rewrite requests_tested.
           split; [reflexivity | split; [reflexivity | now exists m]].
        -- right. exists td, (now_at env (clock_reads (tested c w))).
           destruct (graph_endpoint env _ _) as [m | gr];
             [| destruct (ok gr); [destruct (json gr) |]];
             cbn [fst snd sent tick requests]; rewrite requests_tested;
             (split; [reflexivity | now rewrite <- app_assoc]).
      * left. cbn [fst snd sent requests]. rewrite requests_tested.
        split; [reflexivity | split; [reflexivity | eexists; reflexivity]].
Qed.

(** The world after [createMeeting]: the world after its [authenticate],
    and the meeting request when that has returned. *)
Lemma createMeeting_world env d u c w :
  snd (snd (createMeeting env d u (c, w)))
  = match authenticate env (c, w) with
    | (Returned _, (c1, w1)) => sent (meeting_request c1 d u) w1
    | (Thrown _, (_, w1)) => w1
    end.
Proof.
  rewrite createMeeting_run.
  destruct (authenticate env (c, w)) as [[[] | m] [c1 w1]]; [| reflexivity].
  cbv zeta. destruct (graph_endpoint env _ _) as [m | gr];
    [| destruct (ok gr); [destruct (json gr) |]]; reflexivity.
Qed.

(** Counts the requests of an explicit world. *)
Ltac count_requests :=
  unfold credential_exchanges, meeting_creations;
  cbn [snd fst sent tick requests];
  rewrite ?requests_tested, ?filter_app, ?length_app; cbn [filter];
  rewrite ?token_request_is_exchange, ?token_request_is_no_creation;
  repeat match goal with
         | |- context [is_meeting_request (meeting_request ?c ?d ?u)] =>
             rewrite (proj1 (meeting_request_is_creation c d u))
         | |- context [is_token_request (meeting_request ?c ?d ?u)] =>
             rewrite (proj2 (meeting_request_is_creation c d u))
         end;
  cbn [length]; lia.

(** X1. A call of [createMeeting] never repeats a request, whatever the
    provider answers: it keeps what was sent before and adds at most two
    requests, one credential exchange exactly when the cache misses and
    one meeting creation exactly when [authenticate] has returned. *)
Theorem createMeeting_sends_each_request_once
    (env : Env) (d : MeetingSchedulerInput) (u : option string)
    (c : MicrosoftGraphClient) (w : World) :
  let w' := snd (snd (createMeeting env d u (c, w))) in
  (exists added,
      requests w' = (requests w ++ added)%list /\ (length added <= 2)%nat)
  /\ credential_exchanges w'
     = (credential_exchanges w + if cache_hit env c w then 0 else 1)%nat
  /\ meeting_creations w'
     = (meeting_creations w
        + match fst (authenticate env (c, w)) with
          | Returned _ => 1
          | Thrown _ => 0
          end)%nat.
Proof.
  cbv zeta. rewrite createMeeting_world.
  destruct (cache_hit env c w) eqn:E.
  - rewrite (authenticate_hit env c w E). cbn [fst].
    split; [exists [meeting_request c d u]; split; [reflexivity | cbn; lia] |].
    split; count_requests.
  - rewrite (authenticate_miss env c w E). cbv zeta.
    destruct (token_endpoint env (requests w) (token_request c)) as [m | r];
      [| destruct (ok r); [destruct (json r) as [m | td] |]]; cbn [fst].
    + split; [exists [token_request c]; split;
                [cbn [sent requests]; now rewrite requests_tested | cbn; lia] |].
      split; count_requests.
    + split; [exists [token_request c]; split;
                [cbn [sent requests]; now rewrite requests_tested | cbn; lia] |].
      split; count_requests.
    + split; [eexists [token_request c; _]; split;
                [cbn [sent tick requests]; rewrite requests_tested;
                 now rewrite <- app_assoc
                | cbn; lia] |].
      split; count_requests.
    + split; [exists [token_request c]; split;
                [cbn [sent requests]; now rewrite requests_tested | cbn; lia] |].
      split; count_requests.
Qed.

(** X2. A credential exchange that fails, whether the transport fails,
    the status is not a success or the body is not JSON, leaves the token
    cache exactly as it was; its error, under the prefix of [authenticate],
    is what [createMeeting] throws, unchanged, without sending anything
    more. *)
Theorem failed_exchange_keeps_cache
    (env : Env) (c c' : MicrosoftGraphClient) (w w' : World) (m : string) :
  authenticate env (c, w) = (Thrown m, (c', w')) ->
  c' = c
  /\ requests w' = (requests w ++ [token_request c])%list
  /\ String.prefix "Failed to authenticate with Microsoft Graph: " m = true
  /\ (forall d u, createMeeting env d u (c, w) = (Thrown m, (c, w'))).
Proof.
  intros H. pose proof (authenticate_thrown_is_miss _ _ _ _ _ _ H) as E.
  assert (K : c' = c
              /\ requests w' = (requests w ++ [token_request c])%list
              /\ String.prefix "Failed to authenticate with Microsoft Graph: " m
                 = true).
  { rewrite (authenticate_miss env c w E) in H. cbv zeta in H.
    destruct (token_endpoint env (requests w) (token_request c)) as [m0 | r].
    - injection H as Hm <- <-. cbn [sent requests]. rewrite requests_tested.
      split; [reflexivity | split; [reflexivity |]].
      rewrite <- Hm.
      exact (prefix_app "Failed to authenticate with Microsoft Graph: " m0).
    - destruct (ok r); [destruct (json r) as [m0 | td] |];
        [| discriminate |]; injection H as Hm <- <-;
        cbn [sent requests]; rewrite requests_tested;
        (split; [reflexivity | split; [reflexivity |]]); rewrite <- Hm.
      + exact (prefix_app "Failed to authenticate with Microsoft Graph: " m0).
      + exact (prefix_app "Failed to authenticate with Microsoft Graph: "
                 ("Authentication failed: " ++ string_of_Z (status r)
                  ++ " - " ++ text r)). }
  destruct K as (-> & Hreq & Hp).
  split; [reflexivity | split; [exact Hreq | split; [exact Hp |]]].
  intros d u. rewrite createMeeting_run. now rewrite H.
Qed.

Lemma failed_exchange_keeps_cache_witness :
  let c := new_MicrosoftGraphClient "app-id" "app-secret" "contoso" in
  exists w',
    authenticate offline (c, initial_world)
    = (Thrown "Failed to authenticate with Microsoft Graph: fetch failed",
       (c, w'))
    /\ requests w' = [token_request c].
Proof.
  intros c.
  destruct (authenticate offline (c, initial_world)) as [[[] | m] [c' w']] eqn:E;
    [vm_compute in E; discriminate E |].
  destruct (failed_exchange_keeps_cache offline c c' initial_world w' m E)
    as (-> & Hreq & _ & _).
  exists w'. split; [| exact Hreq].
  assert (Em : m = "Failed to authenticate with Microsoft Graph: fetch failed")
    by (vm_compute in E; now injection E as <- _).
  now rewrite Em.
Defined.

(** The client after [createMeeting] is the client after its
    [authenticate]. *)
Lemma createMeeting_client env d u c w :
  fst (snd (createMeeting env d u (c, w))) = fst (snd (authenticate env (c, w))).
Proof.
  rewrite createMeeting_run.
  destruct (authenticate env (c, w)) as [[[] | m] [c1 w1]]; [| reflexivity].
  cbv zeta. destruct (graph_endpoint env _ _) as [m | gr];
    [| destruct (ok gr); [destruct (json gr) |]]; reflexivity.
Qed.

(** X3. No call of [createMeeting] changes the credentials of the
    client, and the token cache is either left as it was or replaced as a
    whole, the token and its expiry together, by those of one successful
    exchange. *)
Theorem credentials_never_change
    (env : Env) (d : MeetingSchedulerInput) (u : option string)
    (c : MicrosoftGraphClient) (w : World) :
  let c' := fst (snd (createMeeting env d u (c, w))) in
  clientId c' = clientId c
  /\ clientSecret c' = clientSecret c
  /\ tenantId c' = tenantId c
  /\ ((accessToken c' = accessToken c /\ tokenExpiry c' = tokenExpiry c)
      \/ exists r td n,
           token_endpoint env (requests w) (token_request c) = Responded r
           /\ json r = Data td
           /\ accessToken c' = Some (access_token td)
           /\ tokenExpiry c' = now_at env n + (expires_in td - 60) * 1000).
Proof.
  cbv zeta. rewrite createMeeting_client.
  destruct (cache_hit env c w) eqn:E.
  - rewrite (authenticate_hit env c w E). repeat split; now left.
  - rewrite (authenticate_miss env c w E). cbv zeta.
    destruct (token_endpoint env (requests w) (token_request c)) as [m | r];
      [repeat split; now left |].
    destruct (ok r); [| repeat split; now left].
    destruct (json r) as [m | td] eqn:Ej; [repeat split; now left |].
    split; [reflexivity | split; [reflexivity | split; [reflexivity |]]].
    right. exists r, td, (clock_reads (tested c w)).
    split; [reflexivity | split; [exact Ej | split; reflexivity]].
Qed.

(** ** The hint on a failed creation *)





(** ** When an invocation reaches the provider *)

Section ReachFacts.

Variable env : Env.

(** [execute] once its checks have passed: the call of [createMeeting] on
    a new client, the normalisation, and the [catch] block around both. *)
Lemma execute_after_validation input config context w cid cs tid ts te :
  client_id config = Some cid ->
  client_secret config = Some cs ->
  tenant_id config = Some tid ->
  truthy cid && truthy cs && truthy tid = true ->
  date_parse env (startDateTime input) = Some ts ->
  date_parse env (endDateTime input) = Some te ->
  (te <=? ts) = false ->
  (ts <? now_at env (clock_reads w)) = false ->
  execute env input config context w
  = match createMeeting env (meetingData_of input) (user_id config)
            (new_MicrosoftGraphClient cid cs tid, tick w) with
    | (Returned meetingResult, (_, w1)) =>
        match meetingInfo_of meetingResult w1 with
        | (Returned info, w2) => (Returned (success input context info), w2)
        | (Thrown m, w2) =>
            (Thrown ("Failed to create Teams meeting: " ++ with_hint m), w2)
        end
    | (Thrown m, (_, w1)) =>
        (Thrown ("Failed to create Teams meeting: " ++ with_hint m), w1)
    end.
Proof.
  intros Ei Ek Et Htr Ps Pe Hle Hlt.
  unfold execute, execute_body, try_catch.
  rewrite Ei, Ek, Et, Htr, Ps, Pe. run. rewrite Hle.
  unfold bind, Date_now, on_object. run. rewrite Hlt.
  destruct (createMeeting env (meetingData_of input) (user_id config)
              (new_MicrosoftGraphClient cid cs tid, tick w))
    as [[meetingResult | m] [c1 w1]]; [| reflexivity].
  destruct (meetingInfo_of meetingResult w1) as [[info | m] w2]; reflexivity.
Qed.

(** The handler once its checks have passed. *)
Lemma handler_after_validation body w d cid cs tid subject s e ts te :
  setting env (Server.config body) client_id "CLIENT_ID" = Some cid ->
  setting env (Server.config body) client_secret "CLIENT_SECRET" = Some cs ->
  setting env (Server.config body) tenant_id "TENANT_ID" = Some tid ->
  truthy cid && truthy cs && truthy tid = true ->
  Server.input_data body = Some d ->
  Server.subject d = Some subject ->
  Server.startDateTime d = Some s ->
  Server.endDateTime d = Some e ->
  truthy subject && truthy s && truthy e = true ->
  date_parse env s = Some ts ->
  date_parse env e = Some te ->
  (te <=? ts) = false ->
  let executionId :=
    "exec_" ++ string_of_Z (now_at env (clock_reads w)) ++ "_"
    ++ random_at env (random_draws w) in
  let failed message w1 :=
    (Returned
       (Server.mkReply 500
          (Server.Failure executionId "INTERNAL_ERROR" message None
             (now_at env (clock_reads w1)))),
     tick w1) in
  post_api_execute env body w
  = match createMeeting env (meetingData_of_input_data d subject s e)
            (setting env (Server.config body) user_id "USER_ID")
            (new_MicrosoftGraphClient cid cs tid, drawn (tick w)) with
    | (Returned meetingResult, (_, w1)) =>
        match meetingResult with
        | VNull => failed "Cannot read properties of null (reading 'id')" w1
        | VUndefined =>
            failed "Cannot read properties of undefined (reading 'id')" w1
        | _ =>
            (Returned
               (Server.mkReply 200
                  (Server.Success executionId
                     (Server.mkMeeting (get_opt meetingResult "id")
                        (get_opt meetingResult "joinUrl")
                        (get_opt meetingResult "subject")
                        (get_opt meetingResult "startDateTime")
                        (get_opt meetingResult "endDateTime"))
                     ("Successfully created Teams meeting " ++ dquote
                      ++ subject ++ dquote)
                     (now_at env (clock_reads w1)))),
             tick w1)
        end
    | (Thrown m, (_, w1)) => failed m w1
    end.
Proof.
  intros Ei Ek Et Htr Hd Hsub Hs He Hreq Ps Pe Hle.
  unfold post_api_execute, generateId, bind, try_catch, Date_now, Math_random,
    ret, handle_body, reply_error.
  run. rewrite Ei, Ek, Et, Htr, Hd. run.
  rewrite Hsub, Hs, He, Hreq. run. rewrite Ps, Pe, Hle.
  unfold bind, on_object, of_outcome. run.
  destruct (createMeeting env (meetingData_of_input_data d subject s e) _
              (new_MicrosoftGraphClient cid cs tid, drawn (tick w)))
    as [[meetingResult | m] [c1 w1]]; [| reflexivity].
  destruct meetingResult; reflexivity.
Qed.

End ReachFacts.

Section ReachTheorems.

Variable env : Env.

Lemma passes_validation_inv input config now :
  passes_validation env input config now = true ->
  exists cid cs tid ts te,
    client_id config = Some cid
    /\ client_secret config = Some cs
    /\ tenant_id config = Some tid
    /\ truthy cid && truthy cs && truthy tid = true
    /\ date_parse env (startDateTime input) = Some ts
    /\ date_parse env (endDateTime input) = Some te
    /\ (te <=? ts) = false
    /\ (ts <? now) = false.
Proof.
  unfold passes_validation, config_complete. intros H.
  apply andb_true_iff in H as [Hc Hv].
  apply andb_true_iff in Hc as [Hc Ht]. apply andb_true_iff in Hc as [Hi Hk].
  apply truthy_opt_some in Hi as (cid & Ei & Hi).
  apply truthy_opt_some in Hk as (cs & Ek & Hk).
  apply truthy_opt_some in Ht as (tid & Et & Ht).
  destruct (date_parse env (startDateTime input)) as [ts |]; [| discriminate].
  destruct (date_parse env (endDateTime input)) as [te |]; [| discriminate].
  apply andb_true_iff in Hv as [Hlt Hle].
  exists cid, cs, tid, ts, te. rewrite Hi, Hk, Ht.
  repeat (split; [first [reflexivity | assumption] |]).
  split; [apply Z.leb_gt; now apply Z.ltb_lt | apply Z.ltb_ge; now apply Z.leb_le].
Qed.

(** [execute] when one of its checks fails: an error, and nothing sent. *)
Lemma execute_refuses input config context w :
  passes_validation env input config (now_at env (clock_reads w)) = false ->
  requests (snd (execute env input config context w)) = requests w
  /\ exists message,
       fst (execute env input config context w) = Thrown message.
Proof.
  unfold passes_validation, config_complete, execute, execute_body, try_catch.
  destruct (client_id config) as [cid |];
    [| intros _; split; [reflexivity | eexists; reflexivity]].
  destruct (client_secret config) as [cs |];
    [| intros _; split; [reflexivity | eexists; reflexivity]].
  destruct (tenant_id config) as [tid |];
    [| intros _; split; [reflexivity | eexists; reflexivity]].
  cbn [truthy_opt].
  destruct (truthy cid && truthy cs && truthy tid);
    [| intros _; split; [reflexivity | eexists; reflexivity]].
  cbn [negb andb].
  destruct (date_parse env (startDateTime input)) as [ts |];
    [| intros _; split; [reflexivity | eexists; reflexivity]].
  destruct (date_parse env (endDateTime input)) as [te |];
    [| intros _; split; [reflexivity | eexists; reflexivity]].
  rewrite (Z.ltb_antisym te ts), (Z.leb_antisym ts (now_at env (clock_reads w))).
  destruct (te <=? ts);
    [intros _; split; [reflexivity | eexists; reflexivity] |].
  unfold bind, Date_now. run.
  destruct (ts <? now_at env (clock_reads w)); [| discriminate].
  intros _; split; [reflexivity | eexists; reflexivity].
Qed.

(** X5. [execute] reaches the provider exactly when its four checks pass
    (credentials present, both dates parsed, end after start, start not
    before the clock, a start equal to the clock value being accepted):
    it then performs the credential exchange, whatever follows; otherwise
    it throws and sends nothing at all. *)
Theorem execute_reaches_provider_iff_valid
    (input : MeetingSchedulerInput) (config : MeetingSchedulerConfig)
    (context : Tool.ExecutionContext) (w : World) :
  if passes_validation env input config (now_at env (clock_reads w))
  then credential_exchanges (snd (execute env input config context w))
       = S (credential_exchanges w)
  else requests (snd (execute env input config context w)) = requests w
       /\ exists message,
            fst (execute env input config context w) = Thrown message.
Proof.
  destruct (passes_validation env input config (now_at env (clock_reads w)))
    eqn:E; [| now apply execute_refuses].
  apply passes_validation_inv in E
    as (cid & cs & tid & ts & te & Ei & Ek & Et & Htr & Ps & Pe & Hle & Hlt).
  rewrite (execute_after_validation env input config context w cid cs tid ts te
             Ei Ek Et Htr Ps Pe Hle Hlt).
  destruct (createMeeting env (meetingData_of input) (user_id config)
              (new_MicrosoftGraphClient cid cs tid, tick w))
    as [o [c1 w1]] eqn:Ec.
  assert (Hx : credential_exchanges w1 = S (credential_exchanges (tick w)))
    by (eapply createMeeting_miss_exchanges; [| exact Ec]; reflexivity).
  rewrite exchanges_tick in Hx.
  destruct o as [meetingResult | m]; [| exact Hx].
  pose proof (meetingInfo_of_pure meetingResult w1) as Hp.
  destruct (meetingInfo_of meetingResult w1) as [[info | m] w2];
    cbn [snd] in Hp |- *; now rewrite Hp.
Qed.

End ReachTheorems.

(** ** The replies of the handler *)

Section ReplyFacts.

Variable env : Env.

Lemma handler_accepts_inv body :
  handler_accepts env body = true ->
  exists cid cs tid d subject s e ts te,
    setting env (Server.config body) client_id "CLIENT_ID" = Some cid
    /\ setting env (Server.config body) client_secret "CLIENT_SECRET" = Some cs
    /\ setting env (Server.config body) tenant_id "TENANT_ID" = Some tid
    /\ truthy cid && truthy cs && truthy tid = true
    /\ Server.input_data body = Some d
    /\ Server.subject d = Some subject
    /\ Server.startDateTime d = Some s
    /\ Server.endDateTime d = Some e
    /\ truthy subject && truthy s && truthy e = true
    /\ date_parse env s = Some ts
    /\ date_parse env e = Some te
    /\ (te <=? ts) = false.
Proof.
  unfold handler_accepts, config_complete. intros H.
  apply andb_true_iff in H as [Hc Hv].
  apply andb_true_iff in Hc as [Hc Ht]. apply andb_true_iff in Hc as [Hi Hk].
  apply truthy_opt_some in Hi as (cid & Ei & Hi).
  apply truthy_opt_some in Hk as (cs & Ek & Hk).
  apply truthy_opt_some in Ht as (tid & Et & Ht).
  destruct (Server.input_data body) as [d |]; [| discriminate].
  apply andb_true_iff in Hv as [Hv Hp]. apply andb_true_iff in Hv as [Hv He].
  apply andb_true_iff in Hv as [Hsub Hs].
  apply truthy_opt_some in Hsub as (subject & Esub & Hsub).
  apply truthy_opt_some in Hs as (s & Es & Hs).
  apply truthy_opt_some in He as (e & Ee & He).
  rewrite Es, Ee in Hp.
  destruct (date_parse env s) as [ts |] eqn:Ps; [| discriminate].
  destruct (date_parse env e) as [te |] eqn:Pe; [| discriminate].
  exists cid, cs, tid, d, subject, s, e, ts, te.
  rewrite Hi, Hk, Ht, Hsub, Hs, He.
  repeat (split; [first [reflexivity | assumption] |]).
  apply Z.leb_gt. now apply Z.ltb_lt.
Qed.

(** The handler when one of its checks fails: a reply 400, nothing sent,
    the clock read for the id and for the timestamp. *)
Lemma handler_refuses body w :
  handler_accepts env body = false ->
  exists error_code message details,
    post_api_execute env body w
    = (Returned
         (Server.mkReply 400
            (Server.Failure
               ("exec_" ++ string_of_Z (now_at env (clock_reads w)) ++ "_"
                ++ random_at env (random_draws w))
               error_code message details
               (now_at env (S (clock_reads w))))),
       tick (drawn (tick w)))
    /\ (error_code = "CONFIGURATION_ERROR" \/ error_code = "VALIDATION_ERROR").
Proof.
  unfold handler_accepts, config_complete, post_api_execute, generateId, bind,
    try_catch, Date_now, Math_random, ret, handle_body, reply_error.
  run.
  destruct (setting env (Server.config body) client_id "CLIENT_ID") as [cid |];
    [| intros _; do 3 eexists; split; [reflexivity | now left]].
  destruct (setting env (Server.config body) client_secret "CLIENT_SECRET")
    as [cs |]; [| intros _; do 3 eexists; split; [reflexivity | now left]].
  destruct (setting env (Server.config body) tenant_id "TENANT_ID") as [tid |];
    [| intros _; do 3 eexists; split; [reflexivity | now left]].
  cbn [truthy_opt].
  destruct (truthy cid && truthy cs && truthy tid);
    [| intros _; do 3 eexists; split; [reflexivity | now left]].
  cbn [negb andb].
  destruct (Server.input_data body) as [d |];
    [| intros _; do 3 eexists; split; [reflexivity | now right]].
  run.
  destruct (Server.subject d) as [subject |];
    [| intros _; do 3 eexists; split; [reflexivity | now right]].
  destruct (Server.startDateTime d) as [s |];
    [| intros _; do 3 eexists; split; [reflexivity | now right]].
  destruct (Server.endDateTime d) as [e |];
    [| intros _; do 3 eexists; split; [reflexivity | now right]].
  cbn [truthy_opt].
  destruct (truthy subject && truthy s && truthy e);
    [| intros _; do 3 eexists; split; [reflexivity | now right]].
  cbn [negb andb].
  destruct (date_parse env s) as [ts |];
    [| intros _; do 3 eexists; split; [reflexivity | now right]].
  destruct (date_parse env e) as [te |];
    [| intros _; do 3 eexists; split; [reflexivity | now right]].
  rewrite (Z.ltb_antisym te ts).
  destruct (te <=? ts); [| discriminate].
  intros _; do 3 eexists; split; [reflexivity | now right].
Qed.

End ReplyFacts.

(** X6. The handler answers every request: no error escapes it.  Its
    reply carries the execution id generated on entry; the status is 400
    with [CONFIGURATION_ERROR] or [VALIDATION_ERROR] when a check fails,
    and otherwise 200 without an error code or 500 with [INTERNAL_ERROR],
    which is how every failure of the provider, of the transport or of the
    reading of the response is reported. *)
Theorem handler_always_replies
    (env : Env) (body : Server.RequestBody) (w : World) :
  exists reply,
    fst (post_api_execute env body w) = Returned reply
    /\ execution_id_of reply
       = "exec_" ++ string_of_Z (now_at env (clock_reads w)) ++ "_"
         ++ random_at env (random_draws w)
    /\ if handler_accepts env body
       then (Server.code reply = 200 /\ Server.error_code_of reply = None)
            \/ (Server.code reply = 500
                /\ Server.error_code_of reply = Some "INTERNAL_ERROR")
       else Server.code reply = 400
            /\ (Server.error_code_of reply = Some "CONFIGURATION_ERROR"
                \/ Server.error_code_of reply = Some "VALIDATION_ERROR").
Proof.
  destruct (handler_accepts env body) eqn:E.
  - apply handler_accepts_inv in E
      as (cid & cs & tid & d & subject & s & e & ts & te
          & Ei & Ek & Et & Htr & Hd & Hsub & Hs & He & Hreq & Ps & Pe & Hle).
    rewrite (handler_after_validation env body w d cid cs tid subject s e ts te
               Ei Ek Et Htr Hd Hsub Hs He Hreq Ps Pe Hle).
    cbv zeta.
    destruct (createMeeting env _ _ _) as [[meetingResult | m] [c1 w1]];
      [destruct meetingResult |];
      eexists; (split; [reflexivity | split; [reflexivity |]]);
      first [left; split; reflexivity | right; split; reflexivity].
  - destruct (handler_refuses env body w E)
      as (code & message & details & -> & Hcode).
    eexists. split; [reflexivity | split; [reflexivity |]].
    split; [reflexivity |].
    destruct Hcode as [-> | ->]; [now left | now right].
Qed.

(** X7. On a request body of the shape the tool declares (an object whose
    [input_data] and [config], when present, hold strings for the subject,
    the two dates and the credentials), the handler reaches the provider
    exactly when its checks pass (credentials from the request or the
    environment, the three required fields, both dates parsed, end after
    start): it then performs the credential exchange, whatever follows;
    otherwise it replies 400 and sends nothing.  On such a body a reply
    500 thus always follows a credential exchange. *)
Theorem handler_reaches_provider_iff_accepts
    (env : Env) (body : Server.RequestBody) (w : World) :
  if handler_accepts env body
  then credential_exchanges (snd (post_api_execute env body w))
       = S (credential_exchanges w)
  else requests (snd (post_api_execute env body w)) = requests w.
Proof.
  destruct (handler_accepts env body) eqn:E.
  - apply handler_accepts_inv in E
      as (cid & cs & tid & d & subject & s & e & ts & te
          & Ei & Ek & Et & Htr & Hd & Hsub & Hs & He & Hreq & Ps & Pe & Hle).
    rewrite (handler_after_validation env body w d cid cs tid subject s e ts te
               Ei Ek Et Htr Hd Hsub Hs He Hreq Ps Pe Hle).
    cbv zeta.
    destruct (createMeeting env _ _ _) as [o [c1 w1]] eqn:Ec.
    assert (Hx : credential_exchanges w1
                 = S (credential_exchanges (drawn (tick w))))
      by (eapply createMeeting_miss_exchanges; [| exact Ec]; reflexivity).
    destruct o as [meetingResult | m]; [destruct meetingResult |]; exact Hx.
  - destruct (handler_refuses env body w E) as (code & message & details & -> & _).
    reflexivity.
Qed.

(** X8. The configuration is checked before the input.  When one of the
    three credentials is missing or empty, in the request and in the
    environment alike, the reply is 400 [CONFIGURATION_ERROR] whatever
    [input_data] holds, nothing is sent, and [missingKeys] names exactly
    the credentials that are missing, in the order [client_id],
    [client_secret], [tenant_id]. *)
Theorem configuration_is_checked_first
    (env : Env) (body : Server.RequestBody) (w : World) :
  let clientId := setting env (Server.config body) client_id "CLIENT_ID" in
  let clientSecret :=
    setting env (Server.config body) client_secret "CLIENT_SECRET" in
  let tenantId := setting env (Server.config body) tenant_id "TENANT_ID" in
  config_complete clientId clientSecret tenantId = false ->
  exists reply w' keys,
    post_api_execute env body w = (Returned reply, w')
    /\ Server.code reply = 400
    /\ Server.error_code_of reply = Some "CONFIGURATION_ERROR"
    /\ requests w' = requests w
    /\ missing_keys_of reply = Some keys
    /\ keys <> []
    /\ (In "client_id" keys <-> truthy_opt clientId = false)
    /\ (In "client_secret" keys <-> truthy_opt clientSecret = false)
    /\ (In "tenant_id" keys <-> truthy_opt tenantId = false).
Proof.
  intros clientId clientSecret tenantId Hc.
  assert (Hrun : post_api_execute env body w
                 = (Returned
                      (Server.mkReply 400
                         (Server.Failure
                            ("exec_" ++ string_of_Z (now_at env (clock_reads w))
                             ++ "_" ++ random_at env (random_draws w))
                            "CONFIGURATION_ERROR"
                            "Missing required Microsoft Graph API configuration"
                            (Some (missingKeys clientId clientSecret tenantId))
                            (now_at env (S (clock_reads w))))),
                    tick (drawn (tick w)))).
  { unfold post_api_execute, generateId, bind, try_catch, Date_now, Math_random,
      ret, handle_body, reply_error.
    run. fold clientId clientSecret tenantId.
    unfold config_complete in Hc.
    destruct clientId as [cid |]; [| reflexivity].
    destruct clientSecret as [cs |]; [| reflexivity].
    destruct tenantId as [tid |]; [| reflexivity].
    cbn [truthy_opt] in Hc. now rewrite Hc. }
  exists (Server.mkReply 400
            (Server.Failure
               ("exec_" ++ string_of_Z (now_at env (clock_reads w))
                ++ "_" ++ random_at env (random_draws w))
               "CONFIGURATION_ERROR"
               "Missing required Microsoft Graph API configuration"
               (Some (missingKeys clientId clientSecret tenantId))
               (now_at env (S (clock_reads w))))),
         (tick (drawn (tick w))), (missingKeys clientId clientSecret tenantId).
  split; [exact Hrun |].
  repeat (split; [reflexivity |]).
  unfold config_complete in Hc. unfold missingKeys.
  destruct (truthy_opt clientId), (truthy_opt clientSecret),
    (truthy_opt tenantId); try discriminate Hc; cbn;
    (split; [discriminate |]);
    repeat split; intros H; try reflexivity; try discriminate H;
    repeat (destruct H as [H | H]; try discriminate H);
    first [contradiction | auto].
Qed.

Lemma configuration_is_checked_first_witness :
  exists reply w',
    post_api_execute half_hourly
      (Server.mkBody None
         (Some (mkConfig (Some "app-id") None (Some "") None)))
      initial_world = (Returned reply, w')
    /\ Server.error_code_of reply = Some "CONFIGURATION_ERROR"
    /\ missing_keys_of reply = Some ["client_secret"; "tenant_id"].
Proof.
  destruct (configuration_is_checked_first half_hourly
              (Server.mkBody None
                 (Some (mkConfig (Some "app-id") None (Some "") None)))
              initial_world eq_refl)
    as (reply & w' & keys & Hrun & _ & Hcode & _ & Hkeys & _).
  exists reply, w'. split; [exact Hrun | split; [exact Hcode |]].
  assert (Ek : missing_keys_of reply = Some ["client_secret"; "tenant_id"])
    by (vm_compute in Hrun; now injection Hrun as <- _).
  exact Ek.
Defined.

(** ** A refused credential exchange *)

(** [createMeeting] when the token endpoint answers with a status that is
    not a success: the error of [authenticate], and nothing sent after the
    token request. *)
Lemma createMeeting_refused_exchange env c w r d u :
  cache_hit env c w = false ->
  token_endpoint env (requests w) (token_request c) = Responded r ->
  ok r = false ->
  createMeeting env d u (c, w)
  = (Thrown
       ("Failed to authenticate with Microsoft Graph: Authentication failed: "
        ++ string_of_Z (status r) ++ " - " ++ text r),
     (c, sent (token_request c) (tested c w))).
Proof.
  intros Hm Hr Hok.
  rewrite createMeeting_run, (authenticate_miss env c w Hm). cbv zeta.
  now rewrite Hr, Hok.
Qed.

(** The [catch] block of [execute] finds [Authentication failed] in that
    message and appends the hint on the credentials. *)
Lemma hint_on_refused_exchange detail :
  with_hint
    ("Failed to authenticate with Microsoft Graph: Authentication failed: "
     ++ detail)
  = "Failed to authenticate with Microsoft Graph: Authentication failed: "
    ++ detail ++ " - Please verify your Microsoft Graph API credentials".
Proof.
  unfold with_hint, error_kind.
  change ("Failed to authenticate with Microsoft Graph: Authentication failed: "
          ++ detail)
    with ("Failed to authenticate with Microsoft Graph: "
          ++ "Authentication failed" ++ (": " ++ detail)).
  rewrite includes_infix. reflexivity.
Qed.

(** C2.  When the token endpoint answers the credential exchange with a
    status that is not a success, [createMeeting] throws an error whose
    message holds the status code and the text the provider returned,
    after [Authentication failed: ].  The token request is the only request
    of the call: it is not repeated, and nothing is sent to the Graph API.
    The error is a plain [Error], and what the two entry points make of it
    differs.  [execute] finds [Authentication failed] in the message and
    throws it again with the hint on the credentials.  The handler of
    [/api/execute] replies 500 with the message under the error code
    [INTERNAL_ERROR], the one code of its [catch] block, where the error
    response shown in the README for this route has
    [AUTHENTICATION_ERROR]. *)
Theorem authentication_failure_stops (env : Env) :
  (forall c w (r : Response TokenData) d u,
      cache_hit env c w = false ->
      token_endpoint env (requests w) (token_request c) = Responded r ->
      ok r = false ->
      exists w',
        createMeeting env d u (c, w)
        = (Thrown
             ("Failed to authenticate with Microsoft Graph: Authentication failed: "
              ++ string_of_Z (status r) ++ " - " ++ text r),
           (c, w'))
        /\ requests w' = (requests w ++ [token_request c])%list
        /\ credential_exchanges w' = S (credential_exchanges w)
        /\ meeting_creations w' = meeting_creations w)
  /\ (forall input config context w cid cs tid (r : Response TokenData),
        passes_validation env input config (now_at env (clock_reads w)) = true ->
        client_id config = Some cid ->
        client_secret config = Some cs ->
        tenant_id config = Some tid ->
        token_endpoint env (requests w)
          (token_request (new_MicrosoftGraphClient cid cs tid)) = Responded r ->
        ok r = false ->
        exists w',
          execute env input config context w
          = (Thrown
               ("Failed to create Teams meeting: Failed to authenticate with Microsoft Graph: Authentication failed: "
                ++ string_of_Z (status r) ++ " - " ++ text r
                ++ " - Please verify your Microsoft Graph API credentials"),
             w')
          /\ requests w'
             = (requests w
                ++ [token_request (new_MicrosoftGraphClient cid cs tid)])%list
          /\ meeting_creations w' = meeting_creations w)
  /\ (forall body w cid cs tid (r : Response TokenData),
        handler_accepts env body = true ->
        setting env (Server.config body) client_id "CLIENT_ID" = Some cid ->
        setting env (Server.config body) client_secret "CLIENT_SECRET"
        = Some cs ->
        setting env (Server.config body) tenant_id "TENANT_ID" = Some tid ->
        token_endpoint env (requests w)
          (token_request (new_MicrosoftGraphClient cid cs tid)) = Responded r ->
        ok r = false ->
        exists reply w',
          post_api_execute env body w = (Returned reply, w')
          /\ Server.code reply = 500
          /\ Server.error_code_of reply = Some "INTERNAL_ERROR"
          /\ Server.error_message_of reply
             = Some ("Failed to authenticate with Microsoft Graph: Authentication failed: "
                     ++ string_of_Z (status r) ++ " - " ++ text r)
          /\ requests w'
             = (requests w
                ++ [token_request (new_MicrosoftGraphClient cid cs tid)])%list
          /\ meeting_creations w' = meeting_creations w).
Proof.
  split; [| split].
  - intros c w r d u Hm Hr Hok.
    exists (sent (token_request c) (tested c w)).
    assert (Hreq : requests (sent (token_request c) (tested c w))
                   = (requests w ++ [token_request c])%list)
      by (cbn [sent requests]; now rewrite requests_tested).
    split; [now apply createMeeting_refused_exchange |].
    split; [exact Hreq | split].
    + rewrite (exchanges_after_request _ _ _ Hreq), token_request_is_exchange.
      lia.
    + rewrite (creations_after_request _ _ _ Hreq),
        token_request_is_no_creation. lia.
  - intros input config context w cid cs tid r Hv Ei Ek Et Hr Hok.
    apply passes_validation_inv in Hv
      as (cid' & cs' & tid' & ts & te & Ei' & Ek' & Et' & Htr & Ps & Pe & Hle
          & Hlt).
    rewrite Ei in Ei'. rewrite Ek in Ek'. rewrite Et in Et'.
    injection Ei' as <-. injection Ek' as <-. injection Et' as <-.
    rewrite (execute_after_validation env input config context w cid cs tid
               ts te Ei Ek Et Htr Ps Pe Hle Hlt).
    rewrite (createMeeting_refused_exchange env
               (new_MicrosoftGraphClient cid cs tid) (tick w) r
               (meetingData_of input) (user_id config) eq_refl Hr Hok).
    rewrite hint_on_refused_exchange, !append_assoc.
    eexists. split; [reflexivity |].
    assert (Hreq : requests
                     (sent (token_request (new_MicrosoftGraphClient cid cs tid))
                        (tested (new_MicrosoftGraphClient cid cs tid) (tick w)))
                   = (requests w
                      ++ [token_request
                            (new_MicrosoftGraphClient cid cs tid)])%list)
      by reflexivity.
    split; [exact Hreq |].
    rewrite (creations_after_request _ w _ Hreq), token_request_is_no_creation.
    lia.
  - intros body w cid cs tid r Ha Ei Ek Et Hr Hok.
    apply handler_accepts_inv in Ha
      as (cid' & cs' & tid' & d & subject & s & e & ts & te
          & Ei' & Ek' & Et' & Htr & Hd & Hsub & Hs & He & Hreq & Ps & Pe & Hle).
    rewrite Ei in Ei'. rewrite Ek in Ek'. rewrite Et in Et'.
    injection Ei' as <-. injection Ek' as <-. injection Et' as <-.
    rewrite (handler_after_validation env body w d cid cs tid subject s e ts te
               Ei Ek Et Htr Hd Hsub Hs He Hreq Ps Pe Hle).
    cbv zeta.
    rewrite (createMeeting_refused_exchange env
               (new_MicrosoftGraphClient cid cs tid) (drawn (tick w)) r
               (meetingData_of_input_data d subject s e)
               (setting env (Server.config body) user_id "USER_ID")
               eq_refl Hr Hok).
    eexists. eexists. split; [reflexivity |].
    assert (Hsent : requests
                      (tick
                         (sent
                            (token_request (new_MicrosoftGraphClient cid cs tid))
                            (tested (new_MicrosoftGraphClient cid cs tid)
                               (drawn (tick w)))))
                    = (requests w
                       ++ [token_request
                             (new_MicrosoftGraphClient cid cs tid)])%list)
      by reflexivity.
    do 3 (split; [reflexivity |]).
    split; [exact Hsent |].
    rewrite (creations_after_request _ w _ Hsent), token_request_is_no_creation.
    lia.
Qed.

Lemma authentication_failure_stops_witness :
  let refused :=
    "Failed to authenticate with Microsoft Graph: Authentication failed: 401 - {error:invalid_client}" in
  (exists w',
      createMeeting unauthorized standup None
        (new_MicrosoftGraphClient "app-id" "app-secret" "contoso", initial_world)
      = (Thrown refused,
         (new_MicrosoftGraphClient "app-id" "app-secret" "contoso", w'))
      /\ credential_exchanges w' = 1%nat
      /\ meeting_creations w' = 0%nat)
  /\ (exists w',
        execute unauthorized standup credentials context_1 initial_world
        = (Thrown
             ("Failed to create Teams meeting: " ++ refused
              ++ " - Please verify your Microsoft Graph API credentials"),
           w')
        /\ meeting_creations w' = 0%nat)
  /\ (exists reply w',
        post_api_execute unauthorized
          (body_of (Some "Standup") "2030-01-01T09:00:00Z"
             "2030-01-01T09:30:00Z")
          initial_world = (Returned reply, w')
        /\ Server.code reply = 500
        /\ Server.error_code_of reply = Some "INTERNAL_ERROR"
        /\ Server.error_message_of reply = Some refused
        /\ meeting_creations w' = 0%nat).
Proof.
  cbv zeta.
  pose (r := mkResponse 401 "{error:invalid_client}"
               (SyntaxError "Unexpected token" : Parsed TokenData)).
  split; [| split].
  - destruct (proj1 (authentication_failure_stops unauthorized)
                (new_MicrosoftGraphClient "app-id" "app-secret" "contoso")
                initial_world r standup None eq_refl eq_refl eq_refl)
      as (w' & Hrun & _ & Hx & Hc).
    exists w'. split; [exact Hrun | split; [exact Hx | exact Hc]].
  - destruct (proj1 (proj2 (authentication_failure_stops unauthorized))
                standup credentials context_1 initial_world
                "app-id" "app-secret" "contoso" r
                eq_refl eq_refl eq_refl eq_refl eq_refl eq_refl)
      as (w' & Hrun & _ & Hc).
    exists w'. split; [exact Hrun | exact Hc].
  - destruct (proj2 (proj2 (authentication_failure_stops unauthorized))
                (body_of (Some "Standup") "2030-01-01T09:00:00Z"
                   "2030-01-01T09:30:00Z")
                initial_world "app-id" "app-secret" "contoso" r
                eq_refl eq_refl eq_refl eq_refl eq_refl eq_refl)
      as (reply & w' & Hrun & Hcode & Herr & Hmsg & _ & Hc).
    exists reply, w'.
    split; [exact Hrun | split; [exact Hcode | split; [exact Herr |]]].
    split; [exact Hmsg | exact Hc].
Defined.

(** ** What a validated request sends *)

(** The flags, the description and the fixed options in a payload. *)
Lemma payload_values (d : MeetingSchedulerInput) :
  lookup "allowAttendeeToEnableCamera" (meetingPayload d)
  = VBool match allowCamera d with Some b => b | None => true end
  /\ lookup "allowAttendeeToEnableMic" (meetingPayload d)
     = VBool match allowMicrophone d with Some b => b | None => true end
  /\ lookup "allowRecording" (meetingPayload d)
     = VBool match allowRecording d with Some b => b | None => false end
  /\ has_key "externalId" (meetingPayload d) = truthy_opt (description d)
  /\ lookup "externalId" (meetingPayload d)
     = (if truthy_opt (description d)
        then value_of_opt_string (description d) else VUndefined)
  /\ Forall (fun p => snd p <> VNull /\ snd p <> VUndefined) (meetingPayload d)
  /\ lookup "allowMeetingChat" (meetingPayload d) = VStr "enabled"
  /\ lookup "allowedPresenters" (meetingPayload d) = VStr "everyone".
Proof.
  unfold meetingPayload, nullish.
  destruct (description d) as [t |]; [destruct t |];
    cbn [truthy_opt truthy app lookup String.eqb Ascii.eqb
         Bool.eqb has_key existsb fst orb value_of_opt_string];
    (split; [reflexivity |]); (split; [reflexivity |]);
    (split; [reflexivity |]); (split; [reflexivity |]);
    (split; [reflexivity |]);
    (split; [repeat (apply Forall_cons; [split; discriminate |]);
             apply Forall_nil |]);
    (split; reflexivity).
Qed.

(** The argument [execute] builds for [createMeeting] yields the payload
    of the input it is built from. *)
Lemma payload_of_meetingData d :
  meetingPayload (meetingData_of d) = meetingPayload d.
Proof.
  unfold meetingPayload, meetingData_of.
  cbn [description startDateTime endDateTime subject allowCamera
       allowMicrophone allowRecording].
  destruct (description d) as [t |]; [destruct t |]; reflexivity.
Qed.

(** What [execute] has sent once its checks have passed and the exchange
    has succeeded, whatever becomes of the meeting. *)
Lemma execute_requests_sent env input config context w cid cs tid tr td :
  passes_validation env input config (now_at env (clock_reads w)) = true ->
  client_id config = Some cid ->
  client_secret config = Some cs ->
  tenant_id config = Some tid ->
  token_endpoint env (requests w)
    (token_request (new_MicrosoftGraphClient cid cs tid)) = Responded tr ->
  ok tr = true ->
  json tr = Data td ->
  let c0 := new_MicrosoftGraphClient cid cs tid in
  let c1 := renewed c0 td (now_at env (S (clock_reads w))) in
  requests (snd (execute env input config context w))
  = (requests w
     ++ [token_request c0;
         meeting_request c1 (meetingData_of input) (user_id config)])%list.
Proof.
  intros Hv Ei Ek Et Hr Hok Hd c0 c1.
  apply passes_validation_inv in Hv
    as (cid' & cs' & tid' & ts & te & Ei' & Ek' & Et' & Htr & Ps & Pe & Hle & Hlt).
  rewrite Ei in Ei'. rewrite Ek in Ek'. rewrite Et in Et'.
  injection Ei' as <-. injection Ek' as <-. injection Et' as <-.
  rewrite (execute_after_validation env input config context w cid cs tid ts te
             Ei Ek Et Htr Ps Pe Hle Hlt).
  pose proof (createMeeting_world env (meetingData_of input) (user_id config)
                c0 (tick w)) as Hw.
  rewrite (authenticate_miss env c0 (tick w) eq_refl) in Hw. cbv zeta in Hw.
  change (requests (tick w)) with (requests w) in Hw.
  fold c0 in Hr. rewrite Hr, Hok, Hd in Hw.
  fold c0.
  destruct (createMeeting env (meetingData_of input) (user_id config)
              (c0, tick w)) as [o [c' w1]].
  cbn [snd] in Hw. subst w1.
  assert (Hreq : requests
                   (sent (meeting_request
                            (renewed c0 td (now_at env (clock_reads (tested c0 (tick w)))))
                            (meetingData_of input) (user_id config))
                      (tick (sent (token_request c0) (tested c0 (tick w)))))
                 = (requests w
                    ++ [token_request c0;
                        meeting_request c1 (meetingData_of input)
                          (user_id config)])%list).
  { cbn [sent tick requests tested]. now rewrite <- app_assoc. }
  destruct o as [meetingResult | m]; [| exact Hreq].
  match goal with
  | |- context [meetingInfo_of meetingResult ?w0] =>
      pose proof (meetingInfo_of_pure meetingResult w0) as Hp;
      destruct (meetingInfo_of meetingResult w0) as [[info | m] w2]
  end; cbn [snd] in Hp |- *; rewrite Hp; exact Hreq.
Qed.

(** C5. For every request, the payload has the camera and microphone flags
    at the caller's value when given (an explicit [false] stays [false])
    and at [true] when omitted, the recording flag at the caller's value
    when given and at [false] when omitted; [externalId] carries the
    description and is a key of the payload only when there is one, no
    value of the payload being [null] or [undefined]; [allowMeetingChat]
    is ['enabled'] and [allowedPresenters] is ['everyone'].  That payload
    is what is sent: [createMeeting] posts it to the Graph API as soon as
    [authenticate] has returned, and sends nothing more when it has thrown;
    [execute], once its checks have passed and the credentials have been
    exchanged, has sent it as the body of its meeting request, built from
    the argument object that yields the same payload as the input. *)
Theorem payload_flags_and_defaults (d : MeetingSchedulerInput) :
  lookup "allowAttendeeToEnableCamera" (meetingPayload d)
  = VBool match allowCamera d with Some b => b | None => true end
  /\ lookup "allowAttendeeToEnableMic" (meetingPayload d)
     = VBool match allowMicrophone d with Some b => b | None => true end
  /\ lookup "allowRecording" (meetingPayload d)
     = VBool match allowRecording d with Some b => b | None => false end
  /\ has_key "externalId" (meetingPayload d) = truthy_opt (description d)
  /\ lookup "externalId" (meetingPayload d)
     = (if truthy_opt (description d)
        then value_of_opt_string (description d) else VUndefined)
  /\ Forall (fun p => snd p <> VNull /\ snd p <> VUndefined) (meetingPayload d)
  /\ lookup "allowMeetingChat" (meetingPayload d) = VStr "enabled"
  /\ lookup "allowedPresenters" (meetingPayload d) = VStr "everyone"
  /\ meetingPayload (meetingData_of d) = meetingPayload d
  /\ (forall c u, body (meeting_request c d u) = Json (meetingPayload d))
  /\ (forall env u c w,
        let w' := snd (snd (createMeeting env d u (c, w))) in
        match authenticate env (c, w) with
        | (Returned _, (_, w1)) =>
            exists creation,
              requests w' = (requests w1 ++ [creation])%list
              /\ is_meeting_request creation = true
              /\ method creation = "POST"
              /\ body creation = Json (meetingPayload d)
        | (Thrown _, (_, w1)) => requests w' = requests w1
        end)
  /\ (forall env config context w cid cs tid tr td,
        passes_validation env d config (now_at env (clock_reads w)) = true ->
        client_id config = Some cid ->
        client_secret config = Some cs ->
        tenant_id config = Some tid ->
        token_endpoint env (requests w)
          (token_request (new_MicrosoftGraphClient cid cs tid))
        = Responded tr ->
        ok tr = true ->
        json tr = Data td ->
        exists creation,
          requests (snd (execute env d config context w))
          = (requests w
             ++ [token_request (new_MicrosoftGraphClient cid cs tid);
                 creation])%list
          /\ is_meeting_request creation = true
          /\ method creation = "POST"
          /\ body creation = Json (meetingPayload d)).
Proof.
  destruct (payload_values d) as (H1 & H2 & H3 & H4 & H5 & H6 & H7 & H8).
  do 8 (split; [assumption |]).
  split; [apply payload_of_meetingData |].
  split; [reflexivity |].
  split.
  - intros env u c w. cbv zeta. rewrite createMeeting_world.
    destruct (authenticate env (c, w)) as [[[] | m] [c1 w1]]; [| reflexivity].
    exists (meeting_request c1 d u).
    split; [reflexivity |].
    split; [apply meeting_request_is_creation | split; reflexivity].
  - intros env config context w cid cs tid tr td Hv Ei Ek Et Hr Hok Hd.
    eexists. split.
    + exact (execute_requests_sent env d config context w cid cs tid tr td
               Hv Ei Ek Et Hr Hok Hd).
    + split; [apply meeting_request_is_creation |].
      split; [reflexivity |].
      cbn [meeting_request body]. now rewrite payload_of_meetingData.
Qed.

Lemma payload_flags_and_defaults_witness :
  let quiet := mkInput "Standup" "2030-01-01T09:00:00Z" "2030-01-01T09:30:00Z"
                 (Some ["ana@contoso.com"]) (Some "") (Some false) None None in
  exists creation,
    requests (snd (execute half_hourly quiet credentials context_1
                     initial_world))
    = [token_request (new_MicrosoftGraphClient "app-id" "app-secret" "contoso");
       creation]
    /\ body creation
       = Json [("startDateTime", VStr "2030-01-01T09:00:00Z");
               ("endDateTime", VStr "2030-01-01T09:30:00Z");
               ("subject", VStr "Standup");
               ("allowAttendeeToEnableCamera", VBool false);
               ("allowAttendeeToEnableMic", VBool true);
               ("allowRecording", VBool false);
               ("allowMeetingChat", VStr "enabled");
               ("allowedPresenters", VStr "everyone")].
Proof.
  cbv zeta.
  destruct (proj2 (proj2 (proj2 (proj2 (proj2 (proj2 (proj2 (proj2 (proj2
              (proj2 (proj2
                 (payload_flags_and_defaults
                    (mkInput "Standup" "2030-01-01T09:00:00Z"
                       "2030-01-01T09:30:00Z" (Some ["ana@contoso.com"])
                       (Some "") (Some false) None None))))))))))))
              half_hourly credentials context_1 initial_world
              "app-id" "app-secret" "contoso"
              (mkResponse 200 "{...}" (Data (mkTokenData "eyJ0eXAi" 3600)))
              (mkTokenData "eyJ0eXAi" 3600)
              eq_refl eq_refl eq_refl eq_refl eq_refl eq_refl eq_refl)
    as (creation & Hreq & _ & _ & Hbody).
  exists creation. split; [exact Hreq | exact Hbody].
Defined.

(** ** The token from one call to the next *)

Section RenewalFacts.

Variable env : Env.

(** After a call whose exchange succeeded, the client holds the token of
    that exchange, whatever became of the creation. *)
Lemma createMeeting_renews d u c w tr td :
  cache_hit env c w = false ->
  token_endpoint env (requests w) (token_request c) = Responded tr ->
  ok tr = true ->
  json tr = Data td ->
  fst (snd (createMeeting env d u (c, w)))
  = renewed c td (now_at env (clock_reads (tested c w))).
Proof.
  intros E Ht Hok Hd. rewrite createMeeting_client.
  rewrite (authenticate_miss env c w E). cbv zeta. now rewrite Ht, Hok, Hd.
Qed.

(** The world after a call on a cache hit. *)
Lemma createMeeting_hit_requests d u c w :
  cache_hit env c w = true ->
  fst (snd (createMeeting env d u (c, w))) = c
  /\ requests (snd (snd (createMeeting env d u (c, w))))
     = (requests w ++ [meeting_request c d u])%list.
Proof.
  intros E.
  pose proof (createMeeting_requests_sent env d u c w) as H.
  cbv zeta in H. now rewrite E in H.
Qed.

End RenewalFacts.

(** X9. A token obtained by one call serves the next, whatever became of
    the meeting the first call asked for (created, refused, transport or
    JSON failure): when the token is not empty and the clock at the next
    call is before the stored expiry, that call sends one request only,
    the meeting request, bearing that token, and leaves the cache as it
    is. *)
Theorem token_serves_next_call
    (env : Env) (c : MicrosoftGraphClient) (w : World)
    (d1 d2 : MeetingSchedulerInput) (u1 u2 : option string)
    (tr : Response TokenData) (td : TokenData) :
  cache_hit env c w = false ->
  token_endpoint env (requests w) (token_request c) = Responded tr ->
  ok tr = true ->
  json tr = Data td ->
  truthy (access_token td) = true ->
  let first := createMeeting env d1 u1 (c, w) in
  let c1 := fst (snd first) in
  let w1 := snd (snd first) in
  now_at env (clock_reads w1)
  < now_at env (clock_reads (tested c w)) + (expires_in td - 60) * 1000 ->
  let second := createMeeting env d2 u2 (c1, w1) in
  fst (snd second) = c1
  /\ requests (snd (snd second))
     = (requests w1 ++ [meeting_request c1 d2 u2])%list
  /\ headers (meeting_request c1 d2 u2)
     = [("Authorization", "Bearer " ++ access_token td);
        ("Content-Type", "application/json")].
Proof.
  intros E Ht Hok Hd Htok first c1 w1 Hnow second.
  assert (Hc1 : c1 = renewed c td (now_at env (clock_reads (tested c w))))
    by (apply createMeeting_renews with (tr := tr); assumption).
  assert (Hhit : cache_hit env c1 w1 = true).
  { unfold cache_hit. rewrite Hc1. cbn [renewed accessToken tokenExpiry truthy_opt].
    rewrite Htok. now apply Z.ltb_lt in Hnow as ->. }
  destruct (createMeeting_hit_requests env d2 u2 c1 w1 Hhit) as [Hc Hr].
  split; [exact Hc | split; [exact Hr |]].
  rewrite Hc1. reflexivity.
Qed.

Lemma token_serves_next_call_witness :
  let env := forbidding_provider t_2027 1800000 "eyJ0eXAi" 3600 403 "Forbidden" in
  let c := new_MicrosoftGraphClient "app-id" "app-secret" "contoso" in
  let first := createMeeting env standup None (c, initial_world) in
  let second := createMeeting env standup None (snd first) in
  credential_exchanges (snd (snd first)) = 1%nat
  /\ requests (snd (snd second))
     = (requests (snd (snd first))
        ++ [meeting_request (fst (snd first)) standup None])%list.
Proof.
  intros env c first second. split; [reflexivity |].
  exact (proj1 (proj2
           (token_serves_next_call env c initial_world standup standup None None
              (mkResponse 200 "{...}" (Data (mkTokenData "eyJ0eXAi" 3600)))
              (mkTokenData "eyJ0eXAi" 3600)
              eq_refl eq_refl eq_refl eq_refl eq_refl eq_refl))).
Defined.

(** X10. Two tokens are never reused.  An empty [access_token] is falsy,
    so the call after the one that obtained it exchanges the credentials
    again, whatever the clock shows.  And a token issued for 60 seconds or
    less is stored with an expiry that is not after the clock value read
    when it was stored, so the next call, read on a clock that has not
    gone back, exchanges the credentials again as well. *)
Theorem unusable_tokens_are_fetched_again
    (env : Env) (c : MicrosoftGraphClient) (w : World)
    (d1 d2 : MeetingSchedulerInput) (u1 u2 : option string)
    (tr : Response TokenData) (td : TokenData) :
  cache_hit env c w = false ->
  token_endpoint env (requests w) (token_request c) = Responded tr ->
  ok tr = true ->
  json tr = Data td ->
  let first := createMeeting env d1 u1 (c, w) in
  let c1 := fst (snd first) in
  let w1 := snd (snd first) in
  access_token td = EmptyString
  \/ (expires_in td <= 60
      /\ now_at env (clock_reads (tested c w)) <= now_at env (clock_reads w1)) ->
  credential_exchanges (snd (snd (createMeeting env d2 u2 (c1, w1))))
  = S (credential_exchanges w1).
Proof.
  intros E Ht Hok Hd first c1 w1 Hbad.
  assert (Hc1 : c1 = renewed c td (now_at env (clock_reads (tested c w))))
    by (apply createMeeting_renews with (tr := tr); assumption).
  assert (Hmiss : cache_hit env c1 w1 = false).
  { unfold cache_hit. rewrite Hc1.
    cbn [renewed accessToken tokenExpiry truthy_opt].
    destruct Hbad as [-> | [Httl Hclock]]; [reflexivity |].
    apply andb_false_iff. right. apply Z.ltb_ge. nia. }
  destruct (createMeeting env d2 u2 (c1, w1)) as [o [c2 w2]] eqn:Ec.
  exact (createMeeting_miss_exchanges env d2 u2 c1 w1 o c2 w2 Hmiss Ec).
Qed.

Lemma unusable_tokens_are_fetched_again_witness :
  let env := provider t_2027 1 "eyJ0eXAi" 60 created_meeting in
  let c := new_MicrosoftGraphClient "app-id" "app-secret" "contoso" in
  let first := createMeeting env standup None (c, initial_world) in
  let second := createMeeting env standup None (snd first) in
  credential_exchanges (snd (snd first)) = 1%nat
  /\ credential_exchanges (snd (snd second)) = 2%nat.
Proof.
  intros env c first second. split; [reflexivity |].
  refine (unusable_tokens_are_fetched_again env c initial_world standup standup
            None None
            (mkResponse 200 "{...}" (Data (mkTokenData "eyJ0eXAi" 60)))
            (mkTokenData "eyJ0eXAi" 60)
            eq_refl eq_refl eq_refl eq_refl (or_intror (conj _ _))).
  - vm_compute; discriminate.
  - vm_compute; discriminate.
Defined.

(** ** What is sent for a meeting *)

(** X11. Whenever [createMeeting] returns, the last request of the call
    is a POST of the payload as JSON, its [Authorization] header being
    [Bearer ] followed by the [accessToken] the client holds when the call
    ends, whatever that is (the code does not look at it), sent to the
    meetings of [userId] when one is given and to the meetings of [me] when
    it is absent or empty. *)
Theorem returned_meeting_was_posted_with_cached_token
    (env : Env) (d : MeetingSchedulerInput) (u : option string)
    (c c' : MicrosoftGraphClient) (w w' : World) (meetingResult : value) :
  createMeeting env d u (c, w) = (Returned meetingResult, (c', w')) ->
  last (requests w') (token_request c)
  = mkRequest
      (match u with
       | Some user =>
           if truthy user
           then "https://graph.microsoft.com/v1.0/users/" ++ user
                ++ "/onlineMeetings"
           else "https://graph.microsoft.com/v1.0/me/onlineMeetings"
       | None => "https://graph.microsoft.com/v1.0/me/onlineMeetings"
       end)
      "POST"
      [("Authorization", bearer (accessToken c'));
       ("Content-Type", "application/json")]
      (Json (meetingPayload d)).
Proof.
  intros H.
  pose proof (createMeeting_requests_sent env d u c w) as K.
  cbv zeta in K. rewrite H in K. cbn [fst snd] in K.
  destruct (cache_hit env c w) eqn:E.
  - destruct K as [-> Hr]. now rewrite Hr, last_last.
  - destruct K as [(_ & _ & m & Hm) | (td & now & -> & Hr)]; [discriminate |].
    change (requests w ++ [token_request c;
                           meeting_request (renewed c td now) d u])%list
      with (requests w ++ [token_request c]
            ++ [meeting_request (renewed c td now) d u])%list in Hr.
    now rewrite Hr, app_assoc, last_last.
Qed.

Lemma returned_meeting_was_posted_with_cached_token_witness :
  exists c' w',
    createMeeting half_hourly standup (Some EmptyString)
      (new_MicrosoftGraphClient "app-id" "app-secret" "contoso", initial_world)
    = (Returned (VObj [("id", VStr "MSpk");
                       ("joinUrl",
                        VStr "https://teams.microsoft.com/l/meetup-join/19")]),
       (c', w'))
    /\ url (last (requests w')
              (token_request
                 (new_MicrosoftGraphClient "app-id" "app-secret" "contoso")))
       = "https://graph.microsoft.com/v1.0/me/onlineMeetings"
    /\ headers (last (requests w')
                  (token_request
                     (new_MicrosoftGraphClient "app-id" "app-secret" "contoso")))
       = [("Authorization", "Bearer eyJ0eXAi");
          ("Content-Type", "application/json")].
Proof.
  destruct (createMeeting half_hourly standup (Some EmptyString)
              (new_MicrosoftGraphClient "app-id" "app-secret" "contoso",
               initial_world)) as [[v | m] [c' w']] eqn:E;
    [| vm_compute in E; discriminate E].
  pose proof (returned_meeting_was_posted_with_cached_token half_hourly standup
                (Some EmptyString) _ c' initial_world w' v E) as Hlast.
  vm_compute in E. injection E as <- <- <-.
  eexists. eexists. split; [reflexivity |].
  rewrite Hlast. split; reflexivity.
Defined.

(** X12. What the provider can tell of a request is its subject, its two
    dates, its description when not empty, and its three permission flags
    once defaulted: two requests have the same payload exactly when they
    agree on these.  So the payload does not tell a default from its
    explicit value, nor an empty description from none, and the argument
    [execute] builds for [createMeeting], which drops an empty description,
    is built once and for all. *)
Theorem payload_normal_forms (d1 d2 : MeetingSchedulerInput) :
  (meetingPayload d1 = meetingPayload d2
   <-> subject d1 = subject d2
       /\ startDateTime d1 = startDateTime d2
       /\ endDateTime d1 = endDateTime d2
       /\ description (meetingData_of d1) = description (meetingData_of d2)
       /\ nullish (allowCamera d1) true = nullish (allowCamera d2) true
       /\ nullish (allowMicrophone d1) true = nullish (allowMicrophone d2) true
       /\ nullish (allowRecording d1) false = nullish (allowRecording d2) false)
  /\ meetingData_of (meetingData_of d1) = meetingData_of d1
  /\ description (meetingData_of d1) <> Some EmptyString.
Proof.
  split; [| split].
  - unfold meetingPayload, meetingData_of. cbn [description].
    split.
    + destruct (description d1) as [t1 |]; [destruct t1 |];
        (destruct (description d2) as [t2 |]; [destruct t2 |]);
        cbn [truthy truthy_opt app]; intros H; injection H; intros;
        try discriminate; repeat split; congruence.
    + intros (-> & -> & -> & Hd & -> & -> & ->).
      destruct (description d1) as [t1 |]; [destruct t1 |];
        (destruct (description d2) as [t2 |]; [destruct t2 |]);
        cbn [truthy truthy_opt app] in Hd |- *;
        try discriminate Hd; try reflexivity.
      now injection Hd as -> ->.
  - unfold meetingData_of.
    cbn [description startDateTime endDateTime subject allowCamera
         allowMicrophone allowRecording attendees].
    destruct (description d1) as [t |]; [destruct t |]; reflexivity.
  - unfold meetingData_of. cbn [description].
    destruct (description d1) as [t |]; [destruct t |]; discriminate.
Qed.

(** ** The two entry points *)

Section EntryPoints.

Variable env : Env.

Lemma payload_of_argument d : meetingPayload (meetingData_of d) = meetingPayload d.
Proof.
  unfold meetingPayload, meetingData_of.
  cbn [description startDateTime endDateTime subject allowCamera
       allowMicrophone allowRecording].
  destruct (description d) as [t |]; [destruct t |]; reflexivity.
Qed.

(** A falsy organizer and no organizer lead to the same endpoint. *)
Lemma endpoint_of_or_else a b :
  truthy_opt a = true \/ truthy_opt b = false ->
  endpoint_of (or_else a b) = endpoint_of a.
Proof.
  unfold or_else. destruct (truthy_opt a) eqn:Ta; [reflexivity |].
  intros [H | H]; [discriminate |].
  assert (Hb : endpoint_of b
               = "https://graph.microsoft.com/v1.0/me/onlineMeetings")
    by (destruct b as [t |]; [cbn in H |- *; now rewrite H | reflexivity]).
  rewrite Hb.
  destruct a as [t |]; [cbn in Ta |- *; now rewrite Ta | reflexivity].
Qed.

(** What a new client sends depends on the requests sent before, on the
    credentials and on the meeting request, not on the clock. *)
Lemma createMeeting_new_requests d u d' u' cid cs tid w w' :
  requests w = requests w' ->
  (forall c, meeting_request c d u = meeting_request c d' u') ->
  requests (snd (snd (createMeeting env d u
                        (new_MicrosoftGraphClient cid cs tid, w))))
  = requests (snd (snd (createMeeting env d' u'
                          (new_MicrosoftGraphClient cid cs tid, w')))).
Proof.
  intros Hw Hm. rewrite !createMeeting_run.
  rewrite (authenticate_miss env (new_MicrosoftGraphClient cid cs tid) w
             eq_refl),
    (authenticate_miss env (new_MicrosoftGraphClient cid cs tid) w' eq_refl).
  cbv zeta.
  change (tested (new_MicrosoftGraphClient cid cs tid) w) with w.
  change (tested (new_MicrosoftGraphClient cid cs tid) w') with w'.
  rewrite <- Hw.
  destruct (token_endpoint env (requests w) _) as [m | tr];
    [cbn [snd sent requests]; now rewrite Hw |].
  destruct (ok tr); [| cbn [snd sent requests]; now rewrite Hw].
  destruct (json tr) as [m | td]; [cbn [snd sent requests]; now rewrite Hw |].
  cbn [tick sent requests]. rewrite <- Hw.
  rewrite <- (Hm (renewed (new_MicrosoftGraphClient cid cs tid) td
                    (now_at env (clock_reads w')))).
  change (meeting_request
            (renewed (new_MicrosoftGraphClient cid cs tid) td
               (now_at env (clock_reads w'))) d u)
    with (meeting_request
            (renewed (new_MicrosoftGraphClient cid cs tid) td
               (now_at env (clock_reads w))) d u).
  destruct (graph_endpoint env _ _) as [m | gr];
    [| destruct (ok gr); [destruct (json gr) |]];
    cbn [snd sent tick requests]; now rewrite Hw.
Qed.

End EntryPoints.

(** X13. The two entry points say the same thing to the provider.  For a
    request that passes the checks of [execute], with its three required
    fields not empty, and an organizer taken from the configuration (or
    none in the environment either), [execute] and the handler of
    [/api/execute] send the same requests, in the same order. *)
Theorem entry_points_send_same_requests
    (env : Env) (input : MeetingSchedulerInput)
    (config : MeetingSchedulerConfig) (context : Tool.ExecutionContext)
    (w : World) :
  passes_validation env input config (now_at env (clock_reads w)) = true ->
  truthy (subject input) && truthy (startDateTime input)
  && truthy (endDateTime input) = true ->
  truthy_opt (user_id config) = true
  \/ truthy_opt (process_env env "USER_ID") = false ->
  requests (snd (execute env input config context w))
  = requests (snd (post_api_execute env (body_for input config) w)).
Proof.
  intros Hv Hreq Huser.
  apply passes_validation_inv in Hv
    as (cid & cs & tid & ts & te & Ei & Ek & Et & Htr & Ps & Pe & Hle & Hlt).
  rewrite (execute_after_validation env input config context w cid cs tid ts te
             Ei Ek Et Htr Ps Pe Hle Hlt).
  assert (Hs : forall key name value,
             key config = Some value -> truthy value = true ->
             setting env (Server.config (body_for input config)) key name
             = Some value).
  { intros key name value Hk Ht. unfold setting, or_else, config_key, body_for.
    cbn [Server.config]. rewrite Hk. cbn [truthy_opt]. now rewrite Ht. }
  pose proof Htr as Htr'.
  apply andb_true_iff in Htr' as [Htr' Ttid].
  apply andb_true_iff in Htr' as [Tcid Tcs].
  rewrite (handler_after_validation env (body_for input config) w
             (Server.mkInputData (Some (subject input))
                (Some (startDateTime input)) (Some (endDateTime input))
                (attendees input) (description input) (allowCamera input)
                (allowMicrophone input) (allowRecording input))
             cid cs tid (subject input) (startDateTime input)
             (endDateTime input) ts te
             (Hs _ _ _ Ei Tcid) (Hs _ _ _ Ek Tcs) (Hs _ _ _ Et Ttid) Htr
             eq_refl eq_refl eq_refl eq_refl Hreq Ps Pe Hle).
  cbv zeta.
  assert (Hsame :
    requests (snd (snd (createMeeting env (meetingData_of input) (user_id config)
                          (new_MicrosoftGraphClient cid cs tid, tick w))))
    = requests (snd (snd (createMeeting env
                            (meetingData_of_input_data
                               (Server.mkInputData (Some (subject input))
                                  (Some (startDateTime input))
                                  (Some (endDateTime input))
                                  (attendees input) (description input)
                                  (allowCamera input) (allowMicrophone input)
                                  (allowRecording input))
                               (subject input) (startDateTime input)
                               (endDateTime input))
                            (setting env (Server.config (body_for input config))
                               user_id "USER_ID")
                            (new_MicrosoftGraphClient cid cs tid,
                             drawn (tick w)))))).
  { apply createMeeting_new_requests; [reflexivity |].
    intros c. unfold meeting_request. f_equal.
    - unfold setting, config_key, body_for. cbn [Server.config].
      symmetry. now apply endpoint_of_or_else.
    - f_equal. now rewrite payload_of_argument. }
  destruct (createMeeting env (meetingData_of input) (user_id config)
              (new_MicrosoftGraphClient cid cs tid, tick w))
    as [o1 [c1 w1]].
  destruct (createMeeting env _ _ (new_MicrosoftGraphClient cid cs tid,
                                   drawn (tick w)))
    as [o2 [c2 w2]].
  cbn [snd] in Hsame.
  assert (H1 : requests
                 (snd match o1 with
                      | Returned meetingResult =>
                          match meetingInfo_of meetingResult w1 with
                          | (Returned info, w3) =>
                              (Returned (success input context info), w3)
                          | (Thrown m, w3) =>
                              (Thrown ("Failed to create Teams meeting: "
                                       ++ with_hint m), w3)
                          end
                      | Thrown m =>
                          (Thrown ("Failed to create Teams meeting: "
                                   ++ with_hint m), w1)
                      end) = requests w1).
  { destruct o1 as [meetingResult | m]; [| reflexivity].
    pose proof (meetingInfo_of_pure meetingResult w1) as Hp.
    destruct (meetingInfo_of meetingResult w1) as [[info | m] w3];
      cbn [snd] in Hp |- *; now rewrite Hp. }
  rewrite H1, Hsame.
  destruct o2 as [meetingResult | m]; [destruct meetingResult |]; reflexivity.
Qed.

Lemma entry_points_send_same_requests_witness :
  requests (snd (execute half_hourly standup credentials context_1 initial_world))
  = requests (snd (post_api_execute half_hourly (body_for standup credentials)
                     initial_world)).
Proof.
  apply (entry_points_send_same_requests half_hourly standup credentials
           context_1 initial_world); [reflexivity | reflexivity | now right].
Defined.

(** ** A response that is not a meeting *)

(** X14. [execute] does not check what the provider answered to a
    successful creation.  A JSON [null] makes the normalisation throw,
    so the caller gets an error although the meeting request was sent
    and accepted; any other JSON value, a meeting or not, gives a
    success, whose [meeting_id] and [join_url] are what the value holds
    under [id] and [joinUrl], [undefined] when it holds nothing there. *)
Theorem response_is_not_checked
    (env : Env) (input : MeetingSchedulerInput)
    (config : MeetingSchedulerConfig) (context : Tool.ExecutionContext)
    (w w1 : World) (cid cs tid : string) (c1 : MicrosoftGraphClient)
    (meetingResult : value) :
  passes_validation env input config (now_at env (clock_reads w)) = true ->
  client_id config = Some cid ->
  client_secret config = Some cs ->
  tenant_id config = Some tid ->
  createMeeting env (meetingData_of input) (user_id config)
    (new_MicrosoftGraphClient cid cs tid, tick w)
  = (Returned meetingResult, (c1, w1)) ->
  meetingResult <> VUndefined ->
  meeting_creations w1 = S (meeting_creations w)
  /\ match meetingResult with
     | VNull =>
         execute env input config context w
         = (Thrown "Failed to create Teams meeting: Cannot read properties of null (reading 'id')",
            w1)
     | _ =>
         exists r,
           execute env input config context w = (Returned r, w1)
           /\ Tool.status r = "success"
           /\ Tool.meeting_id (Tool.meeting (Tool.data r))
              = get_opt meetingResult "id"
           /\ Tool.join_url (Tool.meeting (Tool.data r))
              = get_opt meetingResult "joinUrl"
     end.
Proof.
  intros Hv Ei Ek Et Hc Hu.
  apply passes_validation_inv in Hv
    as (cid' & cs' & tid' & ts & te & Ei' & Ek' & Et' & Htr & Ps & Pe & Hle & Hlt).
  rewrite Ei in Ei'. rewrite Ek in Ek'. rewrite Et in Et'.
  injection Ei' as <-. injection Ek' as <-. injection Et' as <-.
  rewrite (execute_after_validation env input config context w cid cs tid ts te
             Ei Ek Et Htr Ps Pe Hle Hlt), Hc.
  split.
  - destruct (createMeeting_new_returns env cid cs tid _ _ _ _ _ _ Hc)
      as (tr & td & _ & _ & _ & _ & ->).
    unfold meeting_creations. cbn [sent tick requests].
    rewrite !filter_app, !length_app. cbn [filter].
    rewrite token_request_is_no_creation.
    destruct (meeting_request_is_creation
                c1 (meetingData_of input) (user_id config)) as [-> _].
    cbn [length]. lia.
  - destruct meetingResult; try contradiction; try reflexivity;
      (eexists; split; [reflexivity | repeat split]).
Qed.

Lemma response_is_not_checked_witness :
  let env := provider t_2027 1800000 "eyJ0eXAi" 3600 VNull in
  exists w1,
    execute env standup credentials context_1 initial_world
    = (Thrown "Failed to create Teams meeting: Cannot read properties of null (reading 'id')",
       w1)
    /\ meeting_creations w1 = 1%nat.
Proof.
  intros env.
  destruct (createMeeting env (meetingData_of standup) (user_id credentials)
              (new_MicrosoftGraphClient "app-id" "app-secret" "contoso",
               tick initial_world)) as [o [c1 w1]] eqn:Ec.
  assert (Eo : o = Returned VNull)
    by (vm_compute in Ec; now injection Ec as <- _).
  rewrite Eo in Ec.
  destruct (response_is_not_checked env standup credentials context_1
              initial_world w1 "app-id" "app-secret" "contoso" c1 VNull
              eq_refl eq_refl eq_refl eq_refl Ec) as [Hn Hrun];
    [discriminate |].
  exists w1. split; [exact Hrun | exact Hn].
Defined.
